(** * server/scripts/parse_document.py

    A shallow embedding of the document-parsing adapter and the properties
    of its result envelope, process exit code and JSON output.

    Conventions of the embedding:
    - a Python [str] is the list of its Unicode code points;
    - the Docling library and the file system are an explicit [World]:
      every call into them either returns or raises;
    - an exception of the model is an instance of Python's [Exception]
      class, the class named by the handler of [parse_document];
    - calls into the world are recorded in a trace, so that the order of
      the steps of the script can be stated;
    - standard output is a byte stream behind a text layer whose encoding
      and error handler belong to the world: [print] raises when the text
      cannot be encoded. *)

From Stdlib Require Import List String Ascii Bool NArith ZArith Lia.
From Stdlib Require Decimal Hexadecimal DecimalFacts DecimalZ.
Import ListNotations.

Local Open Scope N_scope.

(** ** Python strings *)

Module Py.

Definition char := N.
Definition str := list char.

Fixpoint lit (s : string) : str :=
  match s with
  | EmptyString => []
  | String a r => N_of_ascii a :: lit r
  end.

Definition str_eqb (a b : str) : bool :=
  if list_eq_dec N.eq_dec a b then true else false.

(** Truth value of a string: [if s] holds for every non-empty string. *)
Definition truthy (s : str) : bool :=
  match s with [] => false | _ :: _ => true end.

(** [s.split(sep)] for a one-character separator. *)
Fixpoint split (sep : char) (s : str) : list str :=
  match s with
  | [] => [[]]
  | c :: r =>
      if c =? sep then [] :: split sep r
      else match split sep r with
           | [] => [[c]]
           | x :: xs => (c :: x) :: xs
           end
  end.

(** Values stored in the dictionaries of the script. *)
Inductive value :=
| PyBool (b : bool)
| PyInt (z : Z)
| PyStr (s : str).

(** A dict literal, in insertion order. *)
Definition dict := list (str * value).

Definition keys (d : dict) : list str := map fst d.

Fixpoint get (k : str) (d : dict) : option value :=
  match d with
  | [] => None
  | (k', v) :: r => if str_eqb k k' then Some v else get k r
  end.

Definition has_key (k : str) (d : dict) : bool :=
  match get k d with Some _ => true | None => false end.

End Py.
Import Py.

(** ** pathlib *)

Record Path := mkPath { raw : str }.

(** The components of a POSIX path: split at the separator, empty and
    [.] components dropped. *)
Definition path_parts (p : Path) : list str :=
  filter (fun x => negb (str_eqb x [] || str_eqb x (lit "."))) (split 47 (raw p)).

(** [path.name]: the final component, or the empty string. *)
Definition Path_name (p : Path) : str := last (path_parts p) [].

(** ** The text layer of standard output *)

(** [sys.stdout.encoding]: the ASCII-compatible encodings considered. *)
Inductive encoding :=
| utf_8
| ascii
| latin_1.

(** [sys.stdout.errors]: [strict] by default, [surrogateescape] in the C
    locale. *)
Inductive error_handler :=
| strict
| surrogateescape.

Record TextIO := mkTextIO {
  encoding_of : encoding;
  errors : error_handler
}.

Definition bytes := list N.

(** Code points U+D800 to U+DFFF. *)
Definition is_surrogate (c : char) : bool := (55296 <=? c) && (c <=? 57343).

(** The UTF-8 form of a code point. *)
Definition utf8_char (c : char) : bytes :=
  if c <? 128 then [c]
  else if c <? 2048 then [c / 64 + 192; c mod 64 + 128]
  else if c <? 65536 then
    [c / 4096 + 224; (c / 64) mod 64 + 128; c mod 64 + 128]
  else
    [c / 262144 + 240; (c / 4096) mod 64 + 128; (c / 64) mod 64 + 128;
     c mod 64 + 128].

(** What the error handler gives for a character that the codec rejects:
    [strict] raises; [surrogateescape] turns U+DC80 to U+DCFF back into the
    byte 0x80 to 0xFF it stands for, and raises for any other character. *)
Definition handle_error (h : error_handler) (c : char) : option bytes :=
  match h with
  | strict => None
  | surrogateescape =>
      if (56448 <=? c) && (c <=? 56575) then Some [c - 56320] else None
  end.

(** The bytes of one character, or [None] when the encoding raises
    [UnicodeEncodeError]. *)
Definition encode_char (io : TextIO) (c : char) : option bytes :=
  match encoding_of io with
  | utf_8 =>
      if is_surrogate c || (1114112 <=? c) then handle_error (errors io) c
      else Some (utf8_char c)
  | ascii => if c <? 128 then Some [c] else handle_error (errors io) c
  | latin_1 => if c <? 256 then Some [c] else handle_error (errors io) c
  end.

(** [s.encode(encoding, errors)] *)
Fixpoint encode (io : TextIO) (s : str) : option bytes :=
  match s with
  | [] => Some []
  | c :: r =>
      match encode_char io c, encode io r with
      | Some b, Some bs => Some (b ++ bs)
      | _, _ => None
      end
  end.

(** ** The world outside the script *)

(** An instance of [Exception]; [exc_str e] is [str(e)]. *)
Record Exception := mkException { exc_str : str }.

Inductive outcome (A : Type) :=
| Ret (a : A)
| Raise (e : Exception).
Arguments Ret {A} a.
Arguments Raise {A} e.

Record PageItem := mkPageItem { page_no : Z }.

(** [result.document]: its markdown export and its optional [pages]
    attribute. *)
Record DoclingDocument := mkDocument {
  export_to_markdown : outcome str;
  pages : option (list PageItem)
}.

Record ConversionResult := mkResult { document : DoclingDocument }.

Record DocumentConverter := mkConverter {
  convert : str -> outcome ConversionResult
}.

(** The imported class: calling it constructs a converter. *)
Record DocumentConverterClass := mkClass {
  construct : outcome DocumentConverter
}.

Record World := mkWorld {
  import_DocumentConverter : outcome DocumentConverterClass;
  import_InputFormat : outcome unit;
  path_exists : str -> outcome bool;
  sys_stdout : TextIO
}.

(** ** Traced computations that may raise *)

Inductive event :=
| EvImport (module_name : str)
| EvExists (p : str)
| EvConstruct
| EvConvert (p : str)
| EvExport.

Definition M (A : Type) : Type := list event * outcome A.

Definition ret {A} (a : A) : M A := ([], Ret a).

Definition bind {A B} (m : M A) (f : A -> M B) : M B :=
  match m with
  | (t, Ret a) => let (t', r) := f a in (t ++ t', r)
  | (t, Raise e) => (t, Raise e)
  end.

Definition call {A} (ev : event) (o : outcome A) : M A := ([ev], o).

(** [try: body except Exception as e: handler e] *)
Definition try_except {A} (body : M A) (handler : Exception -> M A) : M A :=
  match body with
  | (t, Ret a) => (t, Ret a)
  | (t, Raise e) => let (t', r) := handler e in (t ++ t', r)
  end.

Definition trace {A} (m : M A) : list event := fst m.
Definition result {A} (m : M A) : outcome A := snd m.

Declare Scope py_scope.
Delimit Scope py_scope with py.
Notation "x <- m ;; k" := (bind m (fun x => k))
  (at level 61, m at next level, right associativity) : py_scope.
Local Open Scope py_scope.

(** ** parse_document *)

Definition not_found_envelope (file_path : str) : dict :=
  [(lit "error", PyStr (lit "File not found: " ++ file_path))].

Definition page_count (d : DoclingDocument) : Z :=
  match pages d with
  | Some ps => Z.of_nat (List.length ps)
  | None => 1%Z
  end.

Definition success_envelope (text filename : str) (n : Z) : dict :=
  [(lit "success", PyBool true);
   (lit "text", PyStr text);
   (lit "filename", PyStr filename);
   (lit "pages", PyInt n)].

Definition failure_envelope (e : Exception) (file_path : str) : dict :=
  [(lit "success", PyBool false);
   (lit "error", PyStr (exc_str e));
   (lit "filename",
     PyStr (if truthy file_path then Path_name (mkPath file_path)
            else lit "unknown"))].

Definition parse_document (w : World) (file_path : str) : M dict :=
  try_except
    (cls <- call (EvImport (lit "docling.document_converter"))
                 (import_DocumentConverter w) ;;
     _ <- call (EvImport (lit "docling.datamodel.base_models"))
               (import_InputFormat w) ;;
     let path := mkPath file_path in
     found <- call (EvExists (raw path)) (path_exists w (raw path)) ;;
     if negb found then ret (not_found_envelope file_path)
     else
       converter <- call EvConstruct (construct cls) ;;
       res <- call (EvConvert file_path) (convert converter file_path) ;;
       text <- call EvExport (export_to_markdown (document res)) ;;
       ret (success_envelope text (Path_name path) (page_count (document res))))
    (fun e => ret (failure_envelope e file_path)).

(** ** json.dumps *)

Module json.

Definition hex_char (d : N) : char :=
  if d <? 10 then 48 + d else 87 + d.

Fixpoint hex_digits (u : Hexadecimal.uint) : str :=
  match u with
  | Hexadecimal.Nil => []
  | Hexadecimal.D0 r => hex_char 0 :: hex_digits r
  | Hexadecimal.D1 r => hex_char 1 :: hex_digits r
  | Hexadecimal.D2 r => hex_char 2 :: hex_digits r
  | Hexadecimal.D3 r => hex_char 3 :: hex_digits r
  | Hexadecimal.D4 r => hex_char 4 :: hex_digits r
  | Hexadecimal.D5 r => hex_char 5 :: hex_digits r
  | Hexadecimal.D6 r => hex_char 6 :: hex_digits r
  | Hexadecimal.D7 r => hex_char 7 :: hex_digits r
  | Hexadecimal.D8 r => hex_char 8 :: hex_digits r
  | Hexadecimal.D9 r => hex_char 9 :: hex_digits r
  | Hexadecimal.Da r => hex_char 10 :: hex_digits r
  | Hexadecimal.Db r => hex_char 11 :: hex_digits r
  | Hexadecimal.Dc r => hex_char 12 :: hex_digits r
  | Hexadecimal.Dd r => hex_char 13 :: hex_digits r
  | Hexadecimal.De r => hex_char 14 :: hex_digits r
  | Hexadecimal.Df r => hex_char 15 :: hex_digits r
  end.

(** ['{0:04x}'.format(n)]: lower-case hexadecimal, padded with zeros to
    four digits. *)
Definition format_04x (n : N) : str :=
  let ds := hex_digits (N.to_hex_uint n) in
  repeat 48 (4 - List.length ds) ++ ds.

(** [ESCAPE_DCT]: the seven named escapes, and the control characters
    added by the loop over [range(0x20)]. *)
Definition ESCAPE_DCT (c : char) : option str :=
  if c =? 92 then Some (lit "\\")
  else if c =? 34 then Some [92; 34]
  else if c =? 8 then Some (lit "\b")
  else if c =? 12 then Some (lit "\f")
  else if c =? 10 then Some (lit "\n")
  else if c =? 13 then Some (lit "\r")
  else if c =? 9 then Some (lit "\t")
  else if c <? 32 then Some (lit "\u" ++ format_04x c)
  else None.

(** The replacement applied to each character by [py_encode_basestring];
    the pattern [ESCAPE] matches exactly the keys of [ESCAPE_DCT]. *)
Definition replace (c : char) : str :=
  match ESCAPE_DCT c with
  | Some r => r
  | None => [c]
  end.

Definition py_encode_basestring (s : str) : str :=
  [34] ++ flat_map replace s ++ [34].

(** The replacement of [py_encode_basestring_ascii]; the pattern
    [ESCAPE_ASCII] matches the backslash, the quote and every character
    outside the range from the space to the tilde. *)
Definition replace_ascii (c : char) : str :=
  if (c =? 92) || (c =? 34) || negb ((32 <=? c) && (c <=? 126)) then
    match ESCAPE_DCT c with
    | Some r => r
    | None =>
        if c <? 65536 then lit "\u" ++ format_04x c
        else
          let n := c - 65536 in
          let s1 := N.lor 55296 (N.land (N.shiftr n 10) 1023) in
          let s2 := N.lor 56320 (N.land n 1023) in
          lit "\u" ++ format_04x s1 ++ lit "\u" ++ format_04x s2
    end
  else [c].

Definition py_encode_basestring_ascii (s : str) : str :=
  [34] ++ flat_map replace_ascii s ++ [34].

Definition encoder (ensure_ascii : bool) : str -> str :=
  if ensure_ascii then py_encode_basestring_ascii else py_encode_basestring.

Fixpoint dec_digits (u : Decimal.uint) : str :=
  match u with
  | Decimal.Nil => []
  | Decimal.D0 r => 48 :: dec_digits r
  | Decimal.D1 r => 49 :: dec_digits r
  | Decimal.D2 r => 50 :: dec_digits r
  | Decimal.D3 r => 51 :: dec_digits r
  | Decimal.D4 r => 52 :: dec_digits r
  | Decimal.D5 r => 53 :: dec_digits r
  | Decimal.D6 r => 54 :: dec_digits r
  | Decimal.D7 r => 55 :: dec_digits r
  | Decimal.D8 r => 56 :: dec_digits r
  | Decimal.D9 r => 57 :: dec_digits r
  end.

Definition int_chars (d : Decimal.int) : str :=
  match d with
  | Decimal.Pos u => dec_digits u
  | Decimal.Neg u => 45 :: dec_digits u
  end.

(** [int.__repr__] *)
Definition int_repr (z : Z) : str := int_chars (Z.to_int z).

Definition encode_value (ensure_ascii : bool) (v : value) : str :=
  match v with
  | PyBool true => lit "true"
  | PyBool false => lit "false"
  | PyInt z => int_repr z
  | PyStr s => encoder ensure_ascii s
  end.

Definition encode_item (ensure_ascii : bool) (kv : str * value) : str :=
  encoder ensure_ascii (fst kv) ++ lit ": " ++ encode_value ensure_ascii (snd kv).

(** The items of a dict, joined by the item separator. *)
Fixpoint encode_items (ensure_ascii : bool) (d : dict) : str :=
  match d with
  | [] => []
  | [kv] => encode_item ensure_ascii kv
  | kv :: r => encode_item ensure_ascii kv ++ lit ", " ++ encode_items ensure_ascii r
  end.

Definition dumps (ensure_ascii : bool) (d : dict) : str :=
  lit "{" ++ encode_items ensure_ascii d ++ lit "}".

End json.

(** ** main *)

Inductive termination :=
| Exited (code : Z)
| Unhandled (e : Exception)
| UnhandledUnicodeEncodeError.

(** The exit code of the interpreter: the argument of [sys.exit], 0 at
    the end of the script, 1 after an unhandled exception. *)
Definition exit_code (t : termination) : Z :=
  match t with
  | Exited c => c
  | Unhandled _ => 1%Z
  | UnhandledUnicodeEncodeError => 1%Z
  end.

Record process := mkProcess {
  calls : list event;
  stdout : bytes;
  status : termination
}.

(** [print(s)]: the text is encoded and written, then a line feed; when
    the text cannot be encoded, [UnicodeEncodeError] is raised ([None]) and
    nothing is written. *)
Definition print (io : TextIO) (s : str) : option bytes :=
  match encode io s with
  | Some b => Some (b ++ [10])
  | None => None
  end.

Definition usage_envelope : dict :=
  [(lit "error", PyStr (lit "Usage: parse_document.py <file_path>"))].

Definition main (w : World) (argv : list str) : process :=
  if (List.length argv <? 2)%nat then
    match print (sys_stdout w) (json.dumps true usage_envelope) with
    | Some out => mkProcess [] out (Exited 1)
    | None => mkProcess [] [] UnhandledUnicodeEncodeError
    end
  else
    let file_path := nth 1 argv [] in
    match parse_document w file_path with
    | (t, Ret r) =>
        match print (sys_stdout w) (json.dumps false r) with
        | Some out => mkProcess t out (Exited 0)
        | None => mkProcess t [] UnhandledUnicodeEncodeError
        end
    | (t, Raise e) => mkProcess t [] (Unhandled e)
    end.

(** ** JSON texts (RFC 8259) *)

Module JsonText.

#[local] Set Warnings "-register-all".

Inductive json :=
| JNull
| JBool (b : bool)
| JNumber (z : Z)
| JString (s : str)
| JArray (elems : list json)
| JObject (membs : list (str * json)).

Definition is_ws (c : char) : Prop := c = 32 \/ c = 9 \/ c = 10 \/ c = 13.

Definition ws (t : str) : Prop := Forall is_ws t.

Definition hex_value (c : char) : option N :=
  if (48 <=? c) && (c <=? 57) then Some (c - 48)
  else if (97 <=? c) && (c <=? 102) then Some (c - 87)
  else if (65 <=? c) && (c <=? 70) then Some (c - 55)
  else None.

(** The character denoted by a two-character escape. *)
Definition escaped (c : char) : option char :=
  if c =? 34 then Some 34
  else if c =? 92 then Some 92
  else if c =? 47 then Some 47
  else if c =? 98 then Some 8
  else if c =? 102 then Some 12
  else if c =? 110 then Some 10
  else if c =? 114 then Some 13
  else if c =? 116 then Some 9
  else None.

(** [chars t s]: the text [t] between two quotes denotes the string [s]. *)
Inductive chars : str -> str -> Prop :=
| chars_nil : chars [] []
| chars_plain c t s :
    32 <= c -> c <> 34 -> c <> 92 -> chars t s -> chars (c :: t) (c :: s)
| chars_escaped e c t s :
    escaped e = Some c -> chars t s -> chars (92 :: e :: t) (c :: s)
| chars_unicode h1 h2 h3 h4 v1 v2 v3 v4 t s :
    hex_value h1 = Some v1 -> hex_value h2 = Some v2 ->
    hex_value h3 = Some v3 -> hex_value h4 = Some v4 ->
    chars t s ->
    chars (92 :: 117 :: h1 :: h2 :: h3 :: h4 :: t)
          ((((v1 * 16 + v2) * 16 + v3) * 16 + v4) :: s).

(** [number t z]: the text [t] is the integer [z], without leading zeros
    and without a negative zero. *)
Inductive number : str -> Z -> Prop :=
| number_int d :
    Decimal.norm d = d -> number (json.int_chars d) (Z.of_int d).

(** [denotes t v]: the text [t] is a JSON value and stands for [v]. *)
Inductive denotes : str -> json -> Prop :=
| d_null : denotes (lit "null") JNull
| d_true : denotes (lit "true") (JBool true)
| d_false : denotes (lit "false") (JBool false)
| d_number t z : number t z -> denotes t (JNumber z)
| d_string t s : chars t s -> denotes ([34] ++ t ++ [34]) (JString s)
| d_array_empty w : ws w -> denotes ([91] ++ w ++ [93]) (JArray [])
| d_array t l : elements t l -> denotes ([91] ++ t ++ [93]) (JArray l)
| d_object_empty w : ws w -> denotes ([123] ++ w ++ [125]) (JObject [])
| d_object t ms : members t ms -> denotes ([123] ++ t ++ [125]) (JObject ms)
with elements : str -> list json -> Prop :=
| elements_one w1 t w2 v :
    ws w1 -> ws w2 -> denotes t v -> elements (w1 ++ t ++ w2) [v]
| elements_more w1 t w2 v r l :
    ws w1 -> ws w2 -> denotes t v -> elements r l ->
    elements (w1 ++ t ++ w2 ++ [44] ++ r) (v :: l)
with members : str -> list (str * json) -> Prop :=
| members_one w1 k w2 w3 t w4 key v :
    ws w1 -> ws w2 -> ws w3 -> ws w4 ->
    chars k key -> denotes t v ->
    members (w1 ++ [34] ++ k ++ [34] ++ w2 ++ [58] ++ w3 ++ t ++ w4)
            [(key, v)]
| members_more w1 k w2 w3 t w4 key v r ms :
    ws w1 -> ws w2 -> ws w3 -> ws w4 ->
    chars k key -> denotes t v -> members r ms ->
    members (w1 ++ [34] ++ k ++ [34] ++ w2 ++ [58] ++ w3 ++ t ++ w4
                ++ [44] ++ r)
            ((key, v) :: ms).

(** A JSON text is a value between optional white space. *)
Definition json_text (t : str) (v : json) : Prop :=
  exists w1 t' w2, ws w1 /\ ws w2 /\ denotes t' v /\ t = w1 ++ t' ++ w2.

Definition of_value (v : value) : json :=
  match v with
  | PyBool b => JBool b
  | PyInt z => JNumber z
  | PyStr s => JString s
  end.

Definition of_dict (d : dict) : json :=
  JObject (map (fun kv => (fst kv, of_value (snd kv))) d).

End JsonText.

(** A line: a text without line feed, followed by one line feed. *)
Definition one_line (out line : str) : Prop :=
  out = line ++ [10] /\ ~ In 10 line.

(** A character from the space on: not one of the control characters
    U+0000 to U+001F. *)
Definition printable (c : char) : Prop := 32 <= c.

(** ** The shapes of a result *)

Definition is_bool (o : option value) : bool :=
  match o with Some (PyBool _) => true | _ => false end.
Definition is_str (o : option value) : bool :=
  match o with Some (PyStr _) => true | _ => false end.
Definition is_int (o : option value) : bool :=
  match o with Some (PyInt _) => true | _ => false end.

Definition keys_are (ks : list string) (d : dict) : bool :=
  if list_eq_dec (list_eq_dec N.eq_dec) (keys d) (map lit ks) then true
  else false.

(** [{success: true, text, filename, pages}] *)
Definition success_shape (d : dict) : bool :=
  keys_are ["success"; "text"; "filename"; "pages"]%string d
  && match get (lit "success") d with Some (PyBool true) => true | _ => false end
  && is_str (get (lit "text") d)
  && is_str (get (lit "filename") d)
  && is_int (get (lit "pages") d).

(** [{success: false, error, filename}] *)
Definition failure_shape (d : dict) : bool :=
  keys_are ["success"; "error"; "filename"]%string d
  && match get (lit "success") d with Some (PyBool false) => true | _ => false end
  && is_str (get (lit "error") d)
  && is_str (get (lit "filename") d).

(** [{error}] *)
Definition minimal_shape (d : dict) : bool :=
  keys_are ["error"]%string d && is_str (get (lit "error") d).

(** ** Worlds used in the examples *)

Definition module_not_found : Exception :=
  mkException (lit "No module named 'docling'").

Definition conversion_failed : Exception :=
  mkException (lit "File format not allowed: notes.xyz").

(** Only the current directory, [/tmp] and [/tmp/report.pdf] exist. *)
Definition small_fs (p : str) : outcome bool :=
  Ret (str_eqb p [] || str_eqb p (lit "/tmp") || str_eqb p (lit "/tmp/report.pdf")
       || str_eqb p (lit "notes.xyz") || str_eqb p (lit "empty.docx")).

Definition report : DoclingDocument :=
  mkDocument (Ret (lit "# Report" ++ [10; 10] ++ lit "caf" ++ [233]))
             (Some [mkPageItem 1; mkPageItem 2; mkPageItem 3]).

(** A document without text and with an empty page collection. *)
Definition blank : DoclingDocument := mkDocument (Ret []) (Some []).

Definition demo_convert (p : str) : outcome ConversionResult :=
  if str_eqb p (lit "/tmp/report.pdf") then Ret (mkResult report)
  else if str_eqb p (lit "empty.docx") then Ret (mkResult blank)
  else Raise conversion_failed.

Definition demo_converter : DocumentConverter := mkConverter demo_convert.

Definition demo_class : DocumentConverterClass := mkClass (Ret demo_converter).

(** Docling is installed. *)
Definition w_docling : World :=
  mkWorld (Ret demo_class) (Ret tt) small_fs (mkTextIO utf_8 strict).

(** Docling is not installed: the first import raises. *)
Definition w_no_docling : World :=
  mkWorld (Raise module_not_found) (Raise module_not_found) small_fs
          (mkTextIO utf_8 strict).

(** The same library and the same files, except that [/tmp] has been
    removed and the converter no longer accepts [empty.docx]. *)
Definition other_convert (p : str) : outcome ConversionResult :=
  if str_eqb p (lit "/tmp/report.pdf") then Ret (mkResult report)
  else Raise conversion_failed.

Definition w_other : World :=
  mkWorld (Ret (mkClass (Ret (mkConverter other_convert)))) (Ret tt)
          (fun p => Ret (str_eqb p (lit "/tmp/report.pdf")))
          (mkTextIO utf_8 strict).

(** ** Two runs on the same file *)

(** The library behaves in the same way on [file_path] in both worlds:
    the imports and the constructor have the same outcome, and the two
    converters have the same outcome on [file_path]. *)
Definition same_converter_at (file_path : str)
    (o1 o2 : outcome DocumentConverterClass) : Prop :=
  match o1, o2 with
  | Raise e1, Raise e2 => e1 = e2
  | Ret c1, Ret c2 =>
      match construct c1, construct c2 with
      | Raise e1, Raise e2 => e1 = e2
      | Ret k1, Ret k2 => convert k1 file_path = convert k2 file_path
      | _, _ => False
      end
  | _, _ => False
  end.

Definition same_run_at (file_path : str) (w1 w2 : World) : Prop :=
  same_converter_at file_path
    (import_DocumentConverter w1) (import_DocumentConverter w2)
  /\ import_InputFormat w1 = import_InputFormat w2
  /\ path_exists w1 file_path = path_exists w2 file_path.

(** ** The steps of a run *)

(** The calls of a complete run, in the order of the source. *)
Definition pipeline (file_path : str) : list event :=
  [EvImport (lit "docling.document_converter");
   EvImport (lit "docling.datamodel.base_models");
   EvExists file_path; EvConstruct; EvConvert file_path; EvExport].

(** The step of [parse_document] that raises [e], if any: an import, the
    existence check, the constructor, the conversion or the export. *)
Definition raises_at (w : World) (file_path : str) (e : Exception) : Prop :=
  import_DocumentConverter w = Raise e
  \/ exists cls, import_DocumentConverter w = Ret cls
     /\ (import_InputFormat w = Raise e
         \/ import_InputFormat w = Ret tt
            /\ (path_exists w file_path = Raise e
                \/ path_exists w file_path = Ret true
                   /\ (construct cls = Raise e
                       \/ exists conv, construct cls = Ret conv
                          /\ (convert conv file_path = Raise e
                              \/ exists res, convert conv file_path = Ret res
                                 /\ export_to_markdown (document res)
                                    = Raise e)))).

(** The whole body of the [try] ran: every step returned. *)
Definition converted (w : World) (file_path : str)
    (res : ConversionResult) (text : str) : Prop :=
  exists cls conv,
    import_DocumentConverter w = Ret cls
    /\ import_InputFormat w = Ret tt
    /\ path_exists w file_path = Ret true
    /\ construct cls = Ret conv
    /\ convert conv file_path = Ret res
    /\ export_to_markdown (document res) = Ret text.

(** The directory of the file cannot be searched: [exists()] raises. *)
Definition permission_denied : Exception :=
  mkException (lit "[Errno 13] Permission denied: '/root/secret.pdf'").

Definition w_denied : World :=
  mkWorld (Ret demo_class) (Ret tt)
          (fun p => if str_eqb p (lit "/root/secret.pdf")
                    then Raise permission_denied else small_fs p)
          (mkTextIO utf_8 strict).

(** The same library and files behind a Latin-1 standard output. *)
Definition w_latin_1 : World :=
  mkWorld (Ret demo_class) (Ret tt) small_fs (mkTextIO latin_1 strict).

(** A file name that is not valid UTF-8, the bytes [café.pdf], as the
    interpreter decodes it in [sys.argv]: the byte 0xE9 becomes the lone
    surrogate U+DCE9. *)
Definition legacy_name : str := lit "caf" ++ [56553] ++ lit ".pdf".

(** ** Reading back a JSON string *)

(** The string between an opening quote, already consumed, and the next
    closing quote, and the text after that quote. *)
Fixpoint read_string (t : str) : option (str * str) :=
  match t with
  | [] => None
  | c :: r =>
      if c =? 34 then Some ([], r)
      else if c =? 92 then
        match r with
        | [] => None
        | e :: r1 =>
            if e =? 117 then
              match r1 with
              | h1 :: h2 :: h3 :: h4 :: r2 =>
                  match JsonText.hex_value h1, JsonText.hex_value h2,
                        JsonText.hex_value h3, JsonText.hex_value h4,
                        read_string r2 with
                  | Some v1, Some v2, Some v3, Some v4, Some (s, rest) =>
                      Some ((((v1 * 16 + v2) * 16 + v3) * 16 + v4) :: s, rest)
                  | _, _, _, _, _ => None
                  end
              | _ => None
              end
            else
              match JsonText.escaped e, read_string r1 with
              | Some c', Some (s, rest) => Some (c' :: s, rest)
              | _, _ => None
              end
        end
      else
        match read_string r with
        | Some (s, rest) => Some (c :: s, rest)
        | None => None
        end
  end.

(** The text after a value of an object: the item separator or the
    closing brace. *)
Definition after_value (r : str) : Prop :=
  exists r', r = 44 :: r' \/ r = 125 :: r'.

(** What follows the first item of an object: the closing brace, or the
    separator and the other items. *)
Definition items_tail (d : dict) (r : str) : str :=
  match d with
  | [] => 125 :: r
  | _ :: _ => 44 :: 32 :: json.encode_items false d ++ 125 :: r
  end.

(** ** Running parse_document *)

Definition ev_import_converter : event :=
  EvImport (lit "docling.document_converter").
Definition ev_import_models : event :=
  EvImport (lit "docling.datamodel.base_models").

Section Runs.

Variable w : World.
Variable file_path : str.

Lemma run_import_raises e :
  import_DocumentConverter w = Raise e ->
  parse_document w file_path
  = ([ev_import_converter], Ret (failure_envelope e file_path)).
Proof. intros H. unfold parse_document. rewrite H. reflexivity. Qed.

Lemma run_import_models_raises cls e :
  import_DocumentConverter w = Ret cls ->
  import_InputFormat w = Raise e ->
  parse_document w file_path
  = ([ev_import_converter; ev_import_models],
     Ret (failure_envelope e file_path)).
Proof. intros H1 H2. unfold parse_document. rewrite H1, H2. reflexivity. Qed.

Variable cls : DocumentConverterClass.
Hypothesis imported : import_DocumentConverter w = Ret cls.
Hypothesis imported_models : import_InputFormat w = Ret tt.

Lemma run_exists_raises e :
  path_exists w file_path = Raise e ->
  parse_document w file_path
  = ([ev_import_converter; ev_import_models; EvExists file_path],
     Ret (failure_envelope e file_path)).
Proof.
  intros H. unfold parse_document. cbn [raw].
  rewrite imported, imported_models, H. reflexivity.
Qed.

Lemma run_not_found :
  path_exists w file_path = Ret false ->
  parse_document w file_path
  = ([ev_import_converter; ev_import_models; EvExists file_path],
     Ret (not_found_envelope file_path)).
Proof.
  intros H. unfold parse_document. cbn [raw].
  rewrite imported, imported_models, H. reflexivity.
Qed.

Hypothesis found : path_exists w file_path = Ret true.

Lemma run_construct_raises e :
  construct cls = Raise e ->
  parse_document w file_path
  = ([ev_import_converter; ev_import_models; EvExists file_path; EvConstruct],
     Ret (failure_envelope e file_path)).
Proof.
  intros H. unfold parse_document. cbn [raw].
  rewrite imported, imported_models, found. cbn. rewrite H. reflexivity.
Qed.

Lemma run_convert_raises conv e :
  construct cls = Ret conv ->
  convert conv file_path = Raise e ->
  parse_document w file_path
  = ([ev_import_converter; ev_import_models; EvExists file_path; EvConstruct;
      EvConvert file_path],
     Ret (failure_envelope e file_path)).
Proof.
  intros H1 H2. unfold parse_document. cbn [raw].
  rewrite imported, imported_models, found. cbn. rewrite H1. cbn.
  rewrite H2. reflexivity.
Qed.

Lemma run_export_raises conv res e :
  construct cls = Ret conv ->
  convert conv file_path = Ret res ->
  export_to_markdown (document res) = Raise e ->
  parse_document w file_path
  = ([ev_import_converter; ev_import_models; EvExists file_path; EvConstruct;
      EvConvert file_path; EvExport],
     Ret (failure_envelope e file_path)).
Proof.
  intros H1 H2 H3. unfold parse_document. cbn [raw].
  rewrite imported, imported_models, found. cbn. rewrite H1. cbn.
  rewrite H2. cbn. rewrite H3. reflexivity.
Qed.

Lemma run_success conv res text :
  construct cls = Ret conv ->
  convert conv file_path = Ret res ->
  export_to_markdown (document res) = Ret text ->
  parse_document w file_path
  = ([ev_import_converter; ev_import_models; EvExists file_path; EvConstruct;
      EvConvert file_path; EvExport],
     Ret (success_envelope text (Path_name (mkPath file_path))
                           (page_count (document res)))).
Proof.
  intros H1 H2 H3. unfold parse_document. cbn [raw].
  rewrite imported, imported_models, found. cbn. rewrite H1. cbn.
  rewrite H2. cbn. rewrite H3. reflexivity.
Qed.

End Runs.

(** Every run ends in one of the three envelopes. *)
Lemma parse_document_cases w file_path :
  (exists e, result (parse_document w file_path)
             = Ret (failure_envelope e file_path))
  \/ result (parse_document w file_path) = Ret (not_found_envelope file_path)
  \/ (exists text n, result (parse_document w file_path)
        = Ret (success_envelope text (Path_name (mkPath file_path)) n)).
Proof.
  destruct (import_DocumentConverter w) as [cls|e] eqn:Hi.
  2:{ left. exists e. now rewrite (run_import_raises w file_path e Hi). }
  destruct (import_InputFormat w) as [[]|e] eqn:Hm.
  2:{ left. exists e.
      now rewrite (run_import_models_raises w file_path cls e Hi Hm). }
  destruct (path_exists w file_path) as [[|]|e] eqn:Hx.
  3:{ left. exists e. now rewrite (run_exists_raises w file_path cls Hi Hm e Hx). }
  2:{ right. left. now rewrite (run_not_found w file_path cls Hi Hm Hx). }
  destruct (construct cls) as [conv|e] eqn:Hc.
  2:{ left. exists e.
      now rewrite (run_construct_raises w file_path cls Hi Hm Hx e Hc). }
  destruct (convert conv file_path) as [res|e] eqn:Hv.
  2:{ left. exists e.
      now rewrite (run_convert_raises w file_path cls Hi Hm Hx conv e Hc Hv). }
  destruct (export_to_markdown (document res)) as [text|e] eqn:He.
  2:{ left. exists e.
      now rewrite (run_export_raises w file_path cls Hi Hm Hx conv res e Hc Hv He). }
  right. right. exists text, (page_count (document res)).
  now rewrite (run_success w file_path cls Hi Hm Hx conv res text Hc Hv He).
Qed.

Lemma parse_document_returns w file_path :
  exists d, result (parse_document w file_path) = Ret d.
Proof.
  destruct (parse_document_cases w file_path) as [[e H]|[H|[text [n H]]]];
    rewrite H; eexists; reflexivity.
Qed.

(** ** The envelopes of parse_document *)




(** C2: when the construction of the converter, the conversion or the
    markdown export raises an exception [e], [parse_document] returns
    [{"success": false, "error": str(e), "filename": name}], where [name]
    is the base name of the path, or ["unknown"] for the empty path; and no
    run of [parse_document] ends in an exception. *)
Theorem caught_exception_envelope w file_path :
  (exists d, result (parse_document w file_path) = Ret d)
  /\ forall cls e,
      import_DocumentConverter w = Ret cls ->
      import_InputFormat w = Ret tt ->
      path_exists w file_path = Ret true ->
      (construct cls = Raise e
       \/ exists conv, construct cls = Ret conv
          /\ (convert conv file_path = Raise e
              \/ exists res, convert conv file_path = Ret res
                 /\ export_to_markdown (document res) = Raise e)) ->
      result (parse_document w file_path)
      = Ret [(lit "success", PyBool false);
             (lit "error", PyStr (exc_str e));
             (lit "filename",
               PyStr (match file_path with
                      | [] => lit "unknown"
                      | _ :: _ => Path_name (mkPath file_path)
                      end))].
Proof.
  split; [apply parse_document_returns|].
  intros cls e Hi Hm Hx H.
  assert (E : result (parse_document w file_path)
              = Ret (failure_envelope e file_path)).
  { destruct H as [Hc|[conv [Hc [Hv|[res [Hv He]]]]]].
    - now rewrite (run_construct_raises w file_path cls Hi Hm Hx e Hc).
    - now rewrite (run_convert_raises w file_path cls Hi Hm Hx conv e Hc Hv).
    - now rewrite (run_export_raises w file_path cls Hi Hm Hx conv res e Hc Hv He). }
  rewrite E. unfold failure_envelope. destruct file_path; reflexivity.
Qed.

Lemma caught_exception_envelope_witness :
  result (parse_document w_docling (lit "notes.xyz"))
  = Ret [(lit "success", PyBool false);
         (lit "error", PyStr (lit "File format not allowed: notes.xyz"));
         (lit "filename", PyStr (Path_name (mkPath (lit "notes.xyz"))))].
Proof.
  apply (proj2 (caught_exception_envelope w_docling (lit "notes.xyz"))
               demo_class conversion_failed); try reflexivity.
  right. exists demo_converter. split; [reflexivity|]. left. reflexivity.
Defined.

(** C3: for an existing path on which conversion and export succeed,
    [parse_document] returns [{"success": true, "text": export,
    "filename": base name, "pages": n}], where [n] is the length of the
    page collection of the document if it has one, and 1 otherwise. *)
Theorem success_envelope_returned w file_path cls conv res text :
  import_DocumentConverter w = Ret cls ->
  import_InputFormat w = Ret tt ->
  path_exists w file_path = Ret true ->
  construct cls = Ret conv ->
  convert conv file_path = Ret res ->
  export_to_markdown (document res) = Ret text ->
  result (parse_document w file_path)
  = Ret [(lit "success", PyBool true);
         (lit "text", PyStr text);
         (lit "filename", PyStr (Path_name (mkPath file_path)));
         (lit "pages",
           PyInt (match pages (document res) with
                  | Some ps => Z.of_nat (List.length ps)
                  | None => 1%Z
                  end))].
Proof.
  intros Hi Hm Hx Hc Hv He.
  now rewrite (run_success w file_path cls Hi Hm Hx conv res text Hc Hv He).
Qed.

Lemma success_envelope_returned_witness :
  result (parse_document w_docling (lit "/tmp/report.pdf"))
  = Ret [(lit "success", PyBool true);
         (lit "text", PyStr (lit "# Report" ++ [10; 10] ++ lit "caf" ++ [233]));
         (lit "filename", PyStr (lit "report.pdf"));
         (lit "pages", PyInt 3)].
Proof.
  apply (success_envelope_returned w_docling (lit "/tmp/report.pdf")
           demo_class demo_converter (mkResult report)
           (lit "# Report" ++ [10; 10] ++ lit "caf" ++ [233]));
    reflexivity.
Defined.

(** C10: the imports come first in the body of the [try]: when one of
    them raises, [parse_document] returns the failure envelope of the
    handler for every path, the existence of the path is never checked, and
    so a path that does not exist does not get the minimal
    [{"error": "File not found: <path>"}] object. *)
Theorem import_failure_envelope w file_path e :
  (import_DocumentConverter w = Raise e
   \/ exists cls, import_DocumentConverter w = Ret cls
                  /\ import_InputFormat w = Raise e) ->
  let run := parse_document w file_path in
  result run
  = Ret [(lit "success", PyBool false);
         (lit "error", PyStr (exc_str e));
         (lit "filename",
           PyStr (match file_path with
                  | [] => lit "unknown"
                  | _ :: _ => Path_name (mkPath file_path)
                  end))]
  /\ hd_error (trace run) = Some (EvImport (lit "docling.document_converter"))
  /\ (forall p, ~ In (EvExists p) (trace run))
  /\ result run
     <> Ret [(lit "error", PyStr (lit "File not found: " ++ file_path))].
Proof.
  intros H run. subst run.
  assert (E : exists t, parse_document w file_path
                = (ev_import_converter :: t, Ret (failure_envelope e file_path))
              /\ forall p, ~ In (EvExists p) t).
  { destruct H as [Hi|[cls [Hi Hm]]].
    - rewrite (run_import_raises w file_path e Hi). exists []. split; auto.
    - rewrite (run_import_models_raises w file_path cls e Hi Hm).
      exists [ev_import_models]. split; [reflexivity|].
      intros p [F|[]]. discriminate F. }
  destruct E as [t [E Ht]]. rewrite E. cbn [result trace fst snd hd_error].
  split; [|split; [reflexivity|split]].
  - unfold failure_envelope. destruct file_path; reflexivity.
  - intros p [F|F]; [discriminate F|exact (Ht p F)].
  - discriminate.
Qed.

Lemma import_failure_envelope_witness :
  path_exists w_no_docling (lit "missing.pdf") = Ret false
  /\ let run := parse_document w_no_docling (lit "missing.pdf") in
     result run
     = Ret [(lit "success", PyBool false);
            (lit "error", PyStr (lit "No module named 'docling'"));
            (lit "filename", PyStr (lit "missing.pdf"))]
     /\ hd_error (trace run) = Some (EvImport (lit "docling.document_converter"))
     /\ (forall p, ~ In (EvExists p) (trace run))
     /\ result run
        <> Ret [(lit "error", PyStr (lit "File not found: " ++ lit "missing.pdf"))].
Proof.
  split; [reflexivity|].
  apply (import_failure_envelope w_no_docling (lit "missing.pdf") module_not_found).
  left. reflexivity.
Defined.

(** C6, as amended: for a file on which conversion succeeds, the envelope
    has [success] true, [text] equal to the markdown export of the document
    (empty when the export is empty), [filename] equal to the base name of
    the path, and [pages] equal to the length of the page collection, which
    is at least 1 when the collection is not empty, and equal to 1 when the
    document has no page collection. *)
Theorem success_envelope_fields w file_path cls conv res text :
  import_DocumentConverter w = Ret cls ->
  import_InputFormat w = Ret tt ->
  path_exists w file_path = Ret true ->
  construct cls = Ret conv ->
  convert conv file_path = Ret res ->
  export_to_markdown (document res) = Ret text ->
  exists d n,
    result (parse_document w file_path) = Ret d
    /\ get (lit "success") d = Some (PyBool true)
    /\ get (lit "text") d = Some (PyStr text)
    /\ get (lit "filename") d = Some (PyStr (Path_name (mkPath file_path)))
    /\ get (lit "pages") d = Some (PyInt n)
    /\ (0 <= n)%Z
    /\ (forall ps, pages (document res) = Some ps ->
          n = Z.of_nat (List.length ps) /\ (ps <> [] -> (1 <= n)%Z))
    /\ (pages (document res) = None -> n = 1%Z).
Proof.
  intros Hi Hm Hx Hc Hv He.
  exists (success_envelope text (Path_name (mkPath file_path))
                           (page_count (document res))),
         (page_count (document res)).
  rewrite (run_success w file_path cls Hi Hm Hx conv res text Hc Hv He).
  repeat (split; [reflexivity|]).
  unfold page_count. destruct (pages (document res)) as [ps|].
  - split; [lia|]. split; [|discriminate].
    intros ps' [= <-]. split; [reflexivity|].
    destruct ps; [congruence|cbn [List.length]; lia].
  - split; [lia|]. split; [discriminate|reflexivity].
Qed.

Lemma success_envelope_fields_witness :
  exists d n,
    result (parse_document w_docling (lit "/tmp/report.pdf")) = Ret d
    /\ get (lit "success") d = Some (PyBool true)
    /\ get (lit "text") d
       = Some (PyStr (lit "# Report" ++ [10; 10] ++ lit "caf" ++ [233]))
    /\ get (lit "filename") d = Some (PyStr (lit "report.pdf"))
    /\ get (lit "pages") d = Some (PyInt n)
    /\ (0 <= n)%Z
    /\ (forall ps, pages report = Some ps ->
          n = Z.of_nat (List.length ps) /\ (ps <> [] -> (1 <= n)%Z))
    /\ (pages report = None -> n = 1%Z).
Proof.
  apply (success_envelope_fields w_docling (lit "/tmp/report.pdf")
           demo_class demo_converter (mkResult report)
           (lit "# Report" ++ [10; 10] ++ lit "caf" ++ [233]));
    reflexivity.
Defined.

(** C6 fails as stated: the conversion of [empty.docx] succeeds with an
    empty export and an empty page collection; the envelope has an empty
    [text] and [pages] equal to 0. *)
Lemma empty_document_envelope :
  path_exists w_docling (lit "empty.docx") = Ret true
  /\ convert demo_converter (lit "empty.docx") = Ret (mkResult blank)
  /\ result (parse_document w_docling (lit "empty.docx"))
     = Ret [(lit "success", PyBool true);
            (lit "text", PyStr []);
            (lit "filename", PyStr (lit "empty.docx"));
            (lit "pages", PyInt 0)]
  /\ ~ (1 <= 0)%Z.
Proof. repeat (split; [reflexivity|]). lia. Qed.

(** C7: every call of [parse_document] returns one result, and this
    result has exactly one of the three shapes: the success envelope, the
    failure envelope of the handler, or the minimal error object, whose
    only key is [error]. *)
Theorem exactly_one_shape w file_path :
  exists d,
    result (parse_document w file_path) = Ret d
    /\ (forall d', result (parse_document w file_path) = Ret d' -> d' = d)
    /\ ((success_shape d = true /\ failure_shape d = false
         /\ minimal_shape d = false)
        \/ (success_shape d = false /\ failure_shape d = true
            /\ minimal_shape d = false /\ has_key (lit "success") d = true)
        \/ (success_shape d = false /\ failure_shape d = false
            /\ minimal_shape d = true /\ has_key (lit "success") d = false)).
Proof.
  destruct (parse_document_cases w file_path) as [[e H]|[H|[text [n H]]]];
    rewrite H; eexists; (split; [reflexivity|]);
    (split; [intros d' [= <-]; reflexivity|]).
  - right. left. repeat split.
  - right. right. repeat split.
  - left. repeat split.
Qed.

Lemma exactly_one_shape_witness :
  exists d,
    result (parse_document w_docling (lit "missing.pdf")) = Ret d
    /\ (forall d', result (parse_document w_docling (lit "missing.pdf")) = Ret d'
          -> d' = d)
    /\ ((success_shape d = true /\ failure_shape d = false
         /\ minimal_shape d = false)
        \/ (success_shape d = false /\ failure_shape d = true
            /\ minimal_shape d = false /\ has_key (lit "success") d = true)
        \/ (success_shape d = false /\ failure_shape d = false
            /\ minimal_shape d = true /\ has_key (lit "success") d = false)).
Proof. exact (exactly_one_shape w_docling (lit "missing.pdf")). Defined.

(** C9: two runs of [parse_document] on the same path, in two worlds
    where the path has the same existence status and the library behaves
    as the same function on this path, return the same envelope, hence the
    same [text] and the same [pages]. *)
Theorem same_file_same_envelope w1 w2 file_path :
  same_run_at file_path w1 w2 ->
  parse_document w1 file_path = parse_document w2 file_path
  /\ forall d1 d2,
       result (parse_document w1 file_path) = Ret d1 ->
       result (parse_document w2 file_path) = Ret d2 ->
       get (lit "text") d1 = get (lit "text") d2
       /\ get (lit "pages") d1 = get (lit "pages") d2.
Proof.
  intros [Hc [Hm Hx]].
  assert (E : parse_document w1 file_path = parse_document w2 file_path).
  { unfold parse_document, same_converter_at in *. cbn [raw].
    rewrite <- Hm, <- Hx.
    destruct (import_DocumentConverter w1) as [c1|e1],
             (import_DocumentConverter w2) as [c2|e2];
      try contradiction; [|now subst].
    cbn. destruct (import_InputFormat w1) as [[]|]; [|reflexivity].
    cbn. destruct (path_exists w1 file_path) as [[|]|]; try reflexivity.
    cbn. destruct (construct c1) as [k1|], (construct c2) as [k2|];
      try contradiction; [|now subst].
    cbn. rewrite Hc. reflexivity. }
  split; [exact E|].
  intros d1 d2 H1 H2. rewrite E in H1. rewrite H1 in H2.
  injection H2 as <-. split; reflexivity.
Qed.

Lemma same_file_same_envelope_witness :
  path_exists w_docling (lit "/tmp") <> path_exists w_other (lit "/tmp")
  /\ parse_document w_docling (lit "/tmp/report.pdf")
     = parse_document w_other (lit "/tmp/report.pdf")
  /\ forall d1 d2,
       result (parse_document w_docling (lit "/tmp/report.pdf")) = Ret d1 ->
       result (parse_document w_other (lit "/tmp/report.pdf")) = Ret d2 ->
       get (lit "text") d1 = get (lit "text") d2
       /\ get (lit "pages") d1 = get (lit "pages") d2.
Proof.
  split; [discriminate|].
  apply (same_file_same_envelope w_docling w_other (lit "/tmp/report.pdf")).
  repeat split.
Defined.

(** ** The text written by json.dumps *)

Section Serialization.

Import JsonText.

Lemma chars_unicode_eq h1 h2 h3 h4 v1 v2 v3 v4 c t s :
  hex_value h1 = Some v1 -> hex_value h2 = Some v2 ->
  hex_value h3 = Some v3 -> hex_value h4 = Some v4 ->
  c = ((v1 * 16 + v2) * 16 + v3) * 16 + v4 ->
  chars t s ->
  chars (92 :: 117 :: h1 :: h2 :: h3 :: h4 :: t) (c :: s).
Proof. intros H1 H2 H3 H4 -> H. now apply chars_unicode. Qed.

Lemma control_characters c :
  c < 32 -> In c (map N.of_nat (seq 0 32)).
Proof.
  intros H. rewrite <- (N2Nat.id c). apply in_map, in_seq. lia.
Qed.

Ltac run_replace c :=
  let r := eval vm_compute in (json.replace c) in
  change (json.replace c) with r.

(** Above the control characters, only the quote and the backslash are
    replaced. *)
Lemma replace_from_space c :
  32 <= c ->
  (c = 34 /\ json.replace c = [92; 34])
  \/ (c = 92 /\ json.replace c = [92; 92])
  \/ (c <> 34 /\ c <> 92 /\ json.replace c = [c]).
Proof.
  intros H. unfold json.replace, json.ESCAPE_DCT.
  destruct (N.eqb_spec c 92) as [->|N92]; [right; left; now split|].
  destruct (N.eqb_spec c 34) as [->|N34]; [left; now split|].
  right. right.
  destruct (N.eqb_spec c 8); [lia|]. destruct (N.eqb_spec c 12); [lia|].
  destruct (N.eqb_spec c 10); [lia|]. destruct (N.eqb_spec c 13); [lia|].
  destruct (N.eqb_spec c 9); [lia|]. destruct (N.ltb_spec c 32); [lia|].
  now repeat split.
Qed.

Lemma replace_denotes c t s :
  chars t s -> chars (json.replace c ++ t) (c :: s).
Proof.
  intros H. destruct (N.ltb_spec c 32) as [L|L].
  - pose proof (control_characters c L) as I. cbn in I.
    repeat (destruct I as [<-|I];
      [ match goal with |- chars (json.replace ?k ++ _) _ => run_replace k end;
        cbn [app];
        first [ apply chars_escaped; [reflexivity|assumption]
              | eapply chars_unicode_eq;
                [reflexivity|reflexivity|reflexivity|reflexivity|reflexivity
                |assumption] ]
      | ]).
    contradiction.
  - destruct (replace_from_space c L) as [[-> E]|[[-> E]|[N1 [N2 E]]]];
      rewrite E; cbn [app].
    + apply chars_escaped; [reflexivity|assumption].
    + apply chars_escaped; [reflexivity|assumption].
    + now apply chars_plain.
Qed.

Lemma replace_printable c : Forall printable (json.replace c).
Proof.
  destruct (N.ltb_spec c 32) as [L|L].
  - pose proof (control_characters c L) as I. cbn in I.
    repeat (destruct I as [<-|I];
      [ match goal with |- Forall _ (json.replace ?k) => run_replace k end;
        repeat constructor; discriminate
      | ]).
    contradiction.
  - destruct (replace_from_space c L) as [[-> E]|[[-> E]|[N1 [N2 E]]]];
      rewrite E; repeat constructor; try discriminate. exact L.
Qed.

Lemma encoded_chars s : chars (flat_map json.replace s) s.
Proof.
  induction s as [|c s IH]; cbn [flat_map].
  - constructor.
  - now apply replace_denotes.
Qed.

Lemma encoded_printable s : Forall printable (json.py_encode_basestring s).
Proof.
  unfold json.py_encode_basestring.
  apply Forall_app. split; [repeat constructor; discriminate|].
  apply Forall_app. split; [|repeat constructor; discriminate].
  induction s as [|c s IH]; cbn [flat_map]; [constructor|].
  apply Forall_app. split; [apply replace_printable|exact IH].
Qed.

Lemma int_repr_number z : number (json.int_repr z) z.
Proof.
  unfold json.int_repr.
  rewrite <- (DecimalZ.of_to z) at 2. apply number_int.
  rewrite <- (DecimalZ.to_of (Z.to_int z)), DecimalZ.of_to. reflexivity.
Qed.

Lemma dec_digits_printable u : Forall printable (json.dec_digits u).
Proof.
  induction u; cbn [json.dec_digits]; constructor; try assumption;
    discriminate.
Qed.

Lemma int_repr_printable z : Forall printable (json.int_repr z).
Proof.
  unfold json.int_repr. destruct (Z.to_int z); cbn [json.int_chars].
  - apply dec_digits_printable.
  - constructor; [discriminate|apply dec_digits_printable].
Qed.

Lemma encode_value_denotes v :
  denotes (json.encode_value false v) (of_value v).
Proof.
  destruct v as [[|]|z|s]; cbn [json.encode_value of_value].
  - apply d_true.
  - apply d_false.
  - apply d_number, int_repr_number.
  - apply (d_string (flat_map json.replace s) s), encoded_chars.
Qed.

Lemma encode_value_printable v :
  Forall printable (json.encode_value false v).
Proof.
  destruct v as [[|]|z|s]; cbn [json.encode_value].
  - repeat constructor; discriminate.
  - repeat constructor; discriminate.
  - apply int_repr_printable.
  - apply encoded_printable.
Qed.

Lemma encode_item_printable kv :
  Forall printable (json.encode_item false kv).
Proof.
  unfold json.encode_item. apply Forall_app. split.
  - apply encoded_printable.
  - apply Forall_app. split; [repeat constructor; discriminate|].
    apply encode_value_printable.
Qed.

Lemma encode_items_printable d :
  Forall printable (json.encode_items false d).
Proof.
  induction d as [|kv [|kv' r] IH].
  - constructor.
  - apply encode_item_printable.
  - change (Forall printable
              (json.encode_item false kv ++ lit ", "
                 ++ json.encode_items false (kv' :: r))).
    apply Forall_app. split; [apply encode_item_printable|].
    apply Forall_app. split; [repeat constructor; discriminate|exact IH].
Qed.

Lemma ws_nil : ws [].
Proof. constructor. Qed.

Lemma ws_space : ws [32].
Proof. repeat constructor. Qed.

Lemma item_text w1 kv :
  w1 ++ json.encode_item false kv
  = w1 ++ [34] ++ flat_map json.replace (fst kv) ++ [34] ++ [] ++ [58]
       ++ [32] ++ json.encode_value false (snd kv) ++ [].
Proof.
  unfold json.encode_item, json.encoder, json.py_encode_basestring.
  cbn [lit N_of_ascii]. rewrite app_nil_r, <- !app_assoc. reflexivity.
Qed.

Lemma encode_items_members d w1 :
  d <> [] -> ws w1 ->
  members (w1 ++ json.encode_items false d)
          (map (fun kv => (fst kv, of_value (snd kv))) d).
Proof.
  revert w1. induction d as [|kv [|kv' r] IH]; intros w1 N W.
  - congruence.
  - cbn [json.encode_items map]. rewrite item_text.
    apply members_one; auto using ws_nil, ws_space, encoded_chars,
      encode_value_denotes.
  - change (json.encode_items false (kv :: kv' :: r))
      with (json.encode_item false kv ++ [44] ++ [32]
              ++ json.encode_items false (kv' :: r)).
    rewrite app_assoc, item_text, <- !app_assoc.
    cbn [map]. 
    apply members_more; auto using ws_nil, ws_space, encoded_chars,
      encode_value_denotes.
    apply (IH [32]); [discriminate|apply ws_space].
Qed.

(** The text of [json.dumps(d, ensure_ascii=False)] is a JSON object with
    the keys and values of [d], in the order of [d]. *)
Lemma dumps_denotes d : denotes (json.dumps false d) (of_dict d).
Proof.
  unfold json.dumps, of_dict. destruct d as [|kv r].
  - apply (d_object_empty []), ws_nil.
  - apply d_object. apply (encode_items_members (kv :: r) []);
      [discriminate|apply ws_nil].
Qed.

Lemma dumps_json_text d : json_text (json.dumps false d) (of_dict d).
Proof.
  exists [], (json.dumps false d), [].
  rewrite app_nil_r. auto using ws_nil, dumps_denotes.
Qed.

Lemma dumps_printable d : Forall printable (json.dumps false d).
Proof.
  unfold json.dumps. apply Forall_app. split; [repeat constructor; discriminate|].
  apply Forall_app. split; [apply encode_items_printable|].
  repeat constructor; discriminate.
Qed.

Lemma dumps_no_line_feed d : ~ In 10 (json.dumps false d).
Proof.
  intros I. pose proof (dumps_printable d) as P. rewrite Forall_forall in P.
  specialize (P 10 I). unfold printable in P. lia.
Qed.

End Serialization.

(** ** Encoding the printed text *)

Ltac Zify.zify_post_hook ::= Z.to_euclidean_division_equations.

Lemma utf8_char_high c :
  128 <= c ->
  utf8_char c <> [] /\ Forall (fun x => 128 <= x) (utf8_char c).
Proof.
  intros H. unfold utf8_char.
  destruct (N.ltb_spec c 128); [lia|].
  destruct (N.ltb_spec c 2048); [|destruct (N.ltb_spec c 65536)];
    (split; [discriminate
            |repeat (apply Forall_cons; [lia|]); apply Forall_nil]).
Qed.

Lemma utf8_char_inj c1 c2 r1 r2 :
  c1 < 1114112 -> c2 < 1114112 ->
  utf8_char c1 ++ r1 = utf8_char c2 ++ r2 -> c1 = c2 /\ r1 = r2.
Proof.
  intros B1 B2. unfold utf8_char.
  destruct (N.ltb_spec c1 128); [|destruct (N.ltb_spec c1 2048);
     [|destruct (N.ltb_spec c1 65536)]];
  (destruct (N.ltb_spec c2 128); [|destruct (N.ltb_spec c2 2048);
     [|destruct (N.ltb_spec c2 65536)]]);
  cbn [app]; intros E; injection E; intros; split; try lia; subst;
    try reflexivity; try lia.
Qed.

Ltac Zify.zify_post_hook ::= idtac.

Section Encoding.

Variable io : TextIO.

Lemma handle_error_high h c b :
  handle_error h c = Some b ->
  128 <= c /\ b = [c - 56320] /\ 128 <= c - 56320.
Proof.
  destruct h; cbn [handle_error]; [discriminate|].
  destruct (N.leb_spec 56448 c); cbn [andb]; [|discriminate].
  destruct (N.leb_spec c 56575); [|discriminate].
  intros [= <-]. repeat split; lia.
Qed.

(** An ASCII character is written as itself; any other character becomes
    one or more bytes from 0x80 on. *)
Lemma encode_char_class c b :
  encode_char io c = Some b ->
  (c < 128 /\ b = [c])
  \/ (128 <= c /\ b <> [] /\ Forall (fun x => 128 <= x) b).
Proof.
  assert (Hh : forall h, handle_error h c = Some b ->
            128 <= c /\ b <> [] /\ Forall (fun x => 128 <= x) b).
  { intros h H. destruct (handle_error_high h c b H) as [H1 [-> H3]].
    repeat split; [exact H1|discriminate|]. repeat constructor. exact H3. }
  unfold encode_char. destruct (encoding_of io).
  - destruct (is_surrogate c || (1114112 <=? c)) eqn:S.
    + intros H. right. eauto.
    + intros [= <-]. destruct (N.ltb_spec c 128) as [L|L].
      * left. split; [exact L|]. unfold utf8_char.
        destruct (N.ltb_spec c 128); [reflexivity|lia].
      * right. split; [exact L|]. apply utf8_char_high, L.
  - destruct (N.ltb_spec c 128) as [L|L].
    + intros [= <-]. now left.
    + intros H. right. eauto.
  - destruct (N.ltb_spec c 256) as [L|L].
    + intros [= <-]. destruct (N.ltb_spec c 128) as [L'|L']; [now left|].
      right. repeat split; [exact L'|discriminate|]. repeat constructor.
      exact L'.
    + intros H. right. eauto.
Qed.

Lemma encode_cons c s b :
  encode io (c :: s) = Some b ->
  exists b1 b2, encode_char io c = Some b1 /\ encode io s = Some b2
                /\ b = b1 ++ b2.
Proof.
  cbn [encode]. destruct (encode_char io c) as [b1|]; [|discriminate].
  destruct (encode io s) as [b2|]; [|discriminate].
  intros [= <-]. eauto.
Qed.

(** The bytes below 0x80 of the output are the ASCII characters of the
    text. *)
Lemma encode_low s : forall b x,
  encode io s = Some b -> x < 128 -> In x b -> In x s.
Proof.
  induction s as [|c s IH]; intros b x E L I.
  - cbn in E. injection E as <-. exact I.
  - destruct (encode_cons c s b E) as [b1 [b2 [E1 [E2 ->]]]].
    apply in_app_or in I. destruct I as [I|I].
    + destruct (encode_char_class c b1 E1) as [[_ ->]|[_ [_ F]]].
      * destruct I as [<-|[]]. now left.
      * rewrite Forall_forall in F. specialize (F x I). lia.
    + right. exact (IH b2 x E2 L I).
Qed.

Lemma encode_printable s : forall b,
  encode io s = Some b -> Forall printable s -> Forall printable b.
Proof.
  induction s as [|c s IH]; intros b E P.
  - cbn in E. injection E as <-. constructor.
  - destruct (encode_cons c s b E) as [b1 [b2 [E1 [E2 ->]]]].
    inversion P as [|? ? Pc Ps]; subst. apply Forall_app. split.
    + destruct (encode_char_class c b1 E1) as [[_ ->]|[_ [_ F]]].
      * repeat constructor. exact Pc.
      * eapply Forall_impl; [|exact F]. unfold printable. intros a; cbn; lia.
    + exact (IH b2 E2 Ps).
Qed.

Lemma encode_char_ascii c : c < 128 -> encode_char io c = Some [c].
Proof.
  intros L. unfold encode_char, is_surrogate, utf8_char.
  destruct (encoding_of io).
  - destruct (N.leb_spec 55296 c); [lia|]. cbn [andb orb].
    destruct (N.leb_spec 1114112 c); [lia|].
    destruct (N.ltb_spec c 128); [reflexivity|lia].
  - destruct (N.ltb_spec c 128); [reflexivity|lia].
  - destruct (N.ltb_spec c 256); [reflexivity|lia].
Qed.

(** ASCII text is encoded as itself, whatever the encoding and the error
    handler. *)
Lemma encode_ascii s :
  Forall (fun c => c < 128) s -> encode io s = Some s.
Proof.
  induction 1 as [|c s L _ IH]; [reflexivity|].
  cbn [encode]. rewrite (encode_char_ascii c L), IH. reflexivity.
Qed.

(** Only ASCII text gives ASCII bytes. *)
Lemma encode_ascii_inv s : forall b,
  encode io s = Some b -> Forall (fun x => x < 128) b -> s = b.
Proof.
  induction s as [|c s IH]; intros b E F.
  - cbn in E. now injection E.
  - destruct (encode_cons c s b E) as [b1 [b2 [E1 [E2 ->]]]].
    apply Forall_app in F. destruct F as [F1 F2].
    destruct (encode_char_class c b1 E1) as [[_ ->]|[_ [N G]]].
    + cbn [app]. now rewrite (IH b2 E2 F2).
    + exfalso. destruct b1 as [|x b1]; [now apply N|].
      inversion F1; inversion G; subst. lia.
Qed.

Lemma encode_utf_8_strict s : forall b,
  encoding_of io = utf_8 -> errors io = strict ->
  encode io s = Some b -> b = flat_map utf8_char s.
Proof.
  induction s as [|c s IH]; intros b U S E.
  - cbn in E. now injection E.
  - destruct (encode_cons c s b E) as [b1 [b2 [E1 [E2 ->]]]].
    cbn [flat_map]. rewrite <- (IH b2 U S E2). f_equal.
    unfold encode_char in E1. rewrite U, S in E1.
    destruct (is_surrogate c || (1114112 <=? c)); [discriminate E1|].
    now injection E1.
Qed.

(** With the strict error handler two characters never share bytes. *)
Lemma encode_char_strict_inj c1 c2 b1 b2 r1 r2 :
  errors io = strict ->
  encode_char io c1 = Some b1 -> encode_char io c2 = Some b2 ->
  b1 ++ r1 = b2 ++ r2 -> c1 = c2 /\ r1 = r2.
Proof.
  intros S. unfold encode_char. rewrite S. cbn [handle_error].
  destruct (encoding_of io).
  - destruct (is_surrogate c1 || (1114112 <=? c1)) eqn:S1; [discriminate|].
    destruct (is_surrogate c2 || (1114112 <=? c2)) eqn:S2; [discriminate|].
    intros [= <-] [= <-]. apply orb_false_elim in S1, S2.
    destruct S1 as [_ S1], S2 as [_ S2].
    apply N.leb_gt in S1, S2. now apply utf8_char_inj.
  - destruct (c1 <? 128); [|discriminate].
    destruct (c2 <? 128); [|discriminate].
    intros [= <-] [= <-] [= -> ->]. auto.
  - destruct (c1 <? 256); [|discriminate].
    destruct (c2 <? 256); [|discriminate].
    intros [= <-] [= <-] [= -> ->]. auto.
Qed.

Lemma encode_strict_inj s1 : forall s2 b,
  errors io = strict ->
  encode io s1 = Some b -> encode io s2 = Some b -> s1 = s2.
Proof.
  induction s1 as [|c1 s1 IH]; intros s2 b S E1 E2.
  - cbn in E1. injection E1 as <-. destruct s2 as [|c2 s2]; [reflexivity|].
    destruct (encode_cons c2 s2 [] E2) as [b1 [b2 [C [_ A]]]].
    destruct (encode_char_class c2 b1 C) as [[_ ->]|[_ [N _]]];
      [discriminate A|].
    destruct b1; [now elim N|discriminate A].
  - destruct (encode_cons c1 s1 b E1) as [b1 [b2 [C1 [R1 ->]]]].
    destruct s2 as [|c2 s2].
    + cbn in E2. injection E2 as A.
      destruct (encode_char_class c1 b1 C1) as [[_ ->]|[_ [N _]]];
        [discriminate A|].
      destruct b1; [now elim N|discriminate A].
    + destruct (encode_cons c2 s2 _ E2) as [b1' [b2' [C2 [R2 A]]]].
      destruct (encode_char_strict_inj c1 c2 b1 b1' b2 b2' S C1 C2 A)
        as [-> ->].
      now rewrite (IH s2 b2' S R1 R2).
Qed.

End Encoding.

(** ** Running main *)

Lemma usage_line_ascii :
  Forall (fun c => c < 128) (json.dumps true usage_envelope).
Proof. vm_compute. repeat (apply Forall_cons; [reflexivity|]). constructor. Qed.

(** Without an argument the usage line is always written. *)
Lemma main_without_argument w argv :
  (List.length argv < 2)%nat ->
  main w argv
  = mkProcess [] (json.dumps true usage_envelope ++ [10]) (Exited 1).
Proof.
  intros L. unfold main, print. apply Nat.ltb_lt in L. rewrite L.
  rewrite (encode_ascii (sys_stdout w) _ usage_line_ascii). reflexivity.
Qed.

(** With an argument, the script prints the serialization of the result
    of [parse_document] and reaches the end of [main], unless the text
    cannot be encoded. *)
Lemma main_with_argument w prog file_path rest :
  exists d,
    result (parse_document w file_path) = Ret d
    /\ main w (prog :: file_path :: rest)
       = match encode (sys_stdout w) (json.dumps false d) with
         | Some b =>
             mkProcess (trace (parse_document w file_path)) (b ++ [10])
                       (Exited 0)
         | None =>
             mkProcess (trace (parse_document w file_path)) []
                       UnhandledUnicodeEncodeError
         end.
Proof.
  destruct (parse_document_returns w file_path) as [d R]. exists d.
  split; [exact R|]. unfold main, print.
  cbn [List.length Nat.ltb Nat.leb nth].
  destruct (parse_document w file_path) as [t o]. cbn [result snd] in R.
  subst o. cbn [trace fst].
  destruct (encode (sys_stdout w) (json.dumps false d)); reflexivity.
Qed.

(** ** The process *)

(** C4: without a command-line argument the script prints exactly
    [{"error": "Usage: parse_document.py <file_path>"}] and a line feed to
    standard output, and exits with exit code 1, without calling the
    library. *)
Theorem usage_error_exit_code_1 w prog :
  let p := main w [prog] in
  stdout p
  = lit "{" ++ [34] ++ lit "error" ++ [34] ++ lit ": "
      ++ [34] ++ lit "Usage: parse_document.py <file_path>" ++ [34]
      ++ lit "}" ++ [10]
  /\ status p = Exited 1
  /\ exit_code (status p) = 1%Z
  /\ calls p = [].
Proof.
  cbn zeta. rewrite (main_without_argument w [prog]) by (cbn; lia).
  repeat split.
Qed.

(** C5, as amended: with at least one command-line argument, and when
    the JSON text of the result can be encoded by the encoding and the
    error handler of standard output, the process exits with exit code 0
    whatever [parse_document] returns (the success envelope, the not-found
    object or the failure envelope of a caught exception), and the result
    is reported by the printed line only; when the text cannot be encoded,
    [print] raises, nothing is written and the exit code is 1. *)
Theorem exit_code_0_when_text_is_encodable w prog file_path rest :
  let p := main w (prog :: file_path :: rest) in
  exists d,
    result (parse_document w file_path) = Ret d
    /\ ((exists e, d = failure_envelope e file_path)
        \/ d = not_found_envelope file_path
        \/ exists text n,
             d = success_envelope text (Path_name (mkPath file_path)) n)
    /\ (forall b,
          encode (sys_stdout w) (json.dumps false d) = Some b ->
          status p = Exited 0
          /\ exit_code (status p) = 0%Z
          /\ stdout p = b ++ [10])
    /\ (encode (sys_stdout w) (json.dumps false d) = None ->
        exit_code (status p) = 1%Z /\ stdout p = []).
Proof.
  destruct (main_with_argument w prog file_path rest) as [d [R O]].
  cbn zeta. rewrite O. exists d. split; [exact R|]. split.
  - destruct (parse_document_cases w file_path) as [[e H]|[H|[text [n H]]]];
      rewrite H in R; injection R as <-; eauto.
  - split.
    + intros b E. rewrite E. repeat split.
    + intros E. rewrite E. split; reflexivity.
Qed.

Lemma exit_code_0_when_text_is_encodable_witness :
  let p := main w_docling [lit "parse_document.py"; lit "/tmp/report.pdf"] in
  exists b,
    encode (mkTextIO utf_8 strict)
      (json.dumps false
         (success_envelope (lit "# Report" ++ [10; 10] ++ lit "caf" ++ [233])
                           (lit "report.pdf") 3))
    = Some b
    /\ status p = Exited 0
    /\ exit_code (status p) = 0%Z
    /\ stdout p = b ++ [10].
Proof.
  destruct (exit_code_0_when_text_is_encodable w_docling
              (lit "parse_document.py") (lit "/tmp/report.pdf") [])
    as [d [R [_ [H _]]]].
  vm_compute in R. injection R as <-.
  eexists. split; [vm_compute; reflexivity|].
  apply H. vm_compute. reflexivity.
Defined.

(** C5 fails as stated: the argument is a file name with a byte that is
    not UTF-8, which [sys.argv] holds as a lone surrogate; the file is not
    found, the not-found object cannot be encoded by a strict UTF-8
    standard output, and the process ends with exit code 1 and an empty
    standard output. *)
Lemma exit_code_1_for_unencodable_path :
  result (parse_document w_docling legacy_name)
  = Ret [(lit "error", PyStr (lit "File not found: " ++ legacy_name))]
  /\ main w_docling [lit "parse_document.py"; legacy_name]
     = mkProcess [ev_import_converter; ev_import_models; EvExists legacy_name]
                 [] UnhandledUnicodeEncodeError
  /\ exit_code (status (main w_docling [lit "parse_document.py"; legacy_name]))
     = 1%Z.
Proof. repeat split. Qed.

(** C8, as amended: without argument, and with an argument whenever the
    JSON text can be encoded by the encoding and the error handler of
    standard output, the script writes exactly one line: the encoding of a
    JSON text that stands for the envelope of the run (the usage error, or
    the result of [parse_document]), in which characters outside ASCII are
    not escaped; the line is UTF-8 when standard output is a strict UTF-8
    stream; when the text cannot be encoded, which needs an argument,
    nothing is written. *)
Theorem output_is_one_encoded_json_line w argv :
  exists line d,
    JsonText.json_text line (JsonText.of_dict d)
    /\ ~ In 10 line
    /\ match argv with
       | _ :: file_path :: _ =>
           result (parse_document w file_path) = Ret d
           /\ line = json.dumps false d
       | _ => d = usage_envelope /\ line = json.dumps true usage_envelope
       end
    /\ (forall c, c < 128 \/ json.replace c = [c])
    /\ (forall b,
          encode (sys_stdout w) line = Some b ->
          one_line (stdout (main w argv)) b
          /\ (sys_stdout w = mkTextIO utf_8 strict ->
              b = flat_map utf8_char line))
    /\ (encode (sys_stdout w) line = None ->
        stdout (main w argv) = [] /\ (2 <= List.length argv)%nat).
Proof.
  assert (A : forall c, c < 128 \/ json.replace c = [c]).
  { intros c. destruct (N.ltb_spec c 128) as [L|L]; [now left|right].
    destruct (replace_from_space c) as [[-> _]|[[-> _]|[_ [_ E]]]];
      [lia|lia|lia|exact E]. }
  assert (K : forall line b out,
            ~ In 10 line -> encode (sys_stdout w) line = Some b ->
            out = b ++ [10] ->
            one_line out b
            /\ (sys_stdout w = mkTextIO utf_8 strict ->
                b = flat_map utf8_char line)).
  { intros line b out N E ->. split.
    - split; [reflexivity|]. intros I. apply N.
      apply (encode_low (sys_stdout w) line b 10 E); [lia|exact I].
    - intros S. apply (encode_utf_8_strict (sys_stdout w) line b);
        [now rewrite S|now rewrite S|exact E]. }
  assert (U : forall a, (List.length a < 2)%nat ->
            exists line d,
              JsonText.json_text line (JsonText.of_dict d)
              /\ ~ In 10 line
              /\ (d = usage_envelope /\ line = json.dumps true usage_envelope)
              /\ (forall c, c < 128 \/ json.replace c = [c])
              /\ (forall b,
                    encode (sys_stdout w) line = Some b ->
                    one_line (stdout (main w a)) b
                    /\ (sys_stdout w = mkTextIO utf_8 strict ->
                        b = flat_map utf8_char line))
              /\ (encode (sys_stdout w) line = None ->
                  stdout (main w a) = [] /\ (2 <= List.length a)%nat)).
  { intros a L. exists (json.dumps true usage_envelope), usage_envelope.
    rewrite (main_without_argument w a L). cbn [stdout].
    rewrite (encode_ascii (sys_stdout w) _ usage_line_ascii).
    split; [change (json.dumps true usage_envelope)
              with (json.dumps false usage_envelope); apply dumps_json_text|].
    split; [change (json.dumps true usage_envelope)
              with (json.dumps false usage_envelope);
            apply dumps_no_line_feed|].
    split; [auto|]. split; [exact A|]. split; [|discriminate].
    intros b [= <-]. apply (K (json.dumps true usage_envelope)).
    - change (json.dumps true usage_envelope)
        with (json.dumps false usage_envelope). apply dumps_no_line_feed.
    - apply (encode_ascii (sys_stdout w) _ usage_line_ascii).
    - reflexivity. }
  destruct argv as [|prog [|file_path rest]].
  - apply U. cbn. lia.
  - apply U. cbn. lia.
  - destruct (main_with_argument w prog file_path rest) as [d [R O]].
    exists (json.dumps false d), d.
    split; [apply dumps_json_text|]. split; [apply dumps_no_line_feed|].
    split; [auto|]. split; [exact A|]. rewrite O. split.
    + intros b E. rewrite E. cbn [stdout].
      apply (K (json.dumps false d)); [apply dumps_no_line_feed|exact E|].
      reflexivity.
    + intros E. rewrite E. cbn [stdout List.length]. split; [reflexivity|lia].
Qed.

Lemma output_is_one_encoded_json_line_witness :
  exists line b,
    JsonText.json_text line
      (JsonText.of_dict
         (success_envelope (lit "# Report" ++ [10; 10] ++ lit "caf" ++ [233])
                           (lit "report.pdf") 3))
    /\ one_line
         (stdout (main w_docling [lit "parse_document.py";
                                  lit "/tmp/report.pdf"])) b
    /\ b = flat_map utf8_char line.
Proof.
  destruct (output_is_one_encoded_json_line w_docling
              [lit "parse_document.py"; lit "/tmp/report.pdf"])
    as [line [d [J [_ [[R ->] [_ [H _]]]]]]].
  vm_compute in R. injection R as <-.
  destruct (encode (sys_stdout w_docling)
              (json.dumps false
                 (success_envelope
                    (lit "# Report" ++ [10; 10] ++ lit "caf" ++ [233])
                    (lit "report.pdf") 3))) as [b|] eqn:E;
    [|vm_compute in E; discriminate E].
  destruct (H b E) as [O U].
  eexists _, b. split; [exact J|]. split; [exact O|exact (U eq_refl)].
Defined.

(** C8 fails as stated, in two ways: for a file name with a lone
    surrogate, under a strict UTF-8 standard output, no line is written at
    all; and under a Latin-1 standard output the line of [/tmp/report.pdf]
    is written with the single byte 0xE9 for U+00E9, which is not its UTF-8
    form 0xC3 0xA9. *)
Lemma no_line_or_no_utf_8 :
  stdout (main w_docling [lit "parse_document.py"; legacy_name]) = []
  /\ exists d line,
       result (parse_document w_latin_1 (lit "/tmp/report.pdf")) = Ret d
       /\ line = json.dumps false d
       /\ In 233 line
       /\ utf8_char 233 = [195; 169]
       /\ stdout (main w_latin_1 [lit "parse_document.py";
                                  lit "/tmp/report.pdf"])
          = line ++ [10]
       /\ stdout (main w_latin_1 [lit "parse_document.py";
                                  lit "/tmp/report.pdf"])
          <> flat_map utf8_char line ++ [10].
Proof.
  split; [reflexivity|].
  eexists _, _. split; [reflexivity|]. split; [reflexivity|].
  split; [vm_compute; tauto|]. split; [reflexivity|].
  split; [reflexivity|]. vm_compute. discriminate.
Qed.


(** ** Every run, step by step *)

(** The eight ways in which a run of [parse_document] can go, with the
    calls made and the envelope returned. *)
Ltac solve_raises :=
  repeat first [ assumption | reflexivity
               | left; solve [auto] | right
               | eexists; split; [solve [eauto]|] | split; [solve [auto]|] ].

Lemma parse_document_runs w file_path :
  (exists e t,
      raises_at w file_path e
      /\ parse_document w file_path = (t, Ret (failure_envelope e file_path))
      /\ (exists rest, pipeline file_path = t ++ rest)
      /\ (In EvConstruct t ->
            (exists cls, import_DocumentConverter w = Ret cls)
            /\ import_InputFormat w = Ret tt
            /\ path_exists w file_path = Ret true))
  \/ (exists cls,
        import_DocumentConverter w = Ret cls
        /\ import_InputFormat w = Ret tt
        /\ path_exists w file_path = Ret false
        /\ parse_document w file_path
           = ([ev_import_converter; ev_import_models; EvExists file_path],
              Ret (not_found_envelope file_path)))
  \/ (exists res text,
        converted w file_path res text
        /\ parse_document w file_path
           = (pipeline file_path,
              Ret (success_envelope text (Path_name (mkPath file_path))
                                    (page_count (document res))))).
Proof.
  unfold raises_at, converted.
  destruct (import_DocumentConverter w) as [cls|e] eqn:Hi.
  2:{ left. exists e, [ev_import_converter]. split; [solve_raises|].
      split; [apply (run_import_raises w file_path e Hi)|].
      split; [eexists; reflexivity|]. cbn. intuition discriminate. }
  destruct (import_InputFormat w) as [[]|e] eqn:Hm.
  2:{ left. exists e, [ev_import_converter; ev_import_models].
      split; [solve_raises|].
      split; [apply (run_import_models_raises w file_path cls e Hi Hm)|].
      split; [eexists; reflexivity|]. cbn. intuition discriminate. }
  destruct (path_exists w file_path) as [[|]|e] eqn:Hx.
  3:{ left. exists e, [ev_import_converter; ev_import_models; EvExists file_path].
      split; [solve_raises|].
      split; [apply (run_exists_raises w file_path cls Hi Hm e Hx)|].
      split; [eexists; reflexivity|]. cbn. intuition discriminate. }
  2:{ right. left. exists cls. repeat (split; [reflexivity|]).
      apply (run_not_found w file_path cls Hi Hm Hx). }
  destruct (construct cls) as [conv|e] eqn:Hc.
  2:{ left. exists e. eexists.
      split; [solve_raises|].
      split; [apply (run_construct_raises w file_path cls Hi Hm Hx e Hc)|].
      split; [eexists; reflexivity|]. intros _. eauto. }
  destruct (convert conv file_path) as [res|e] eqn:Hv.
  2:{ left. exists e. eexists.
      split; [solve_raises|].
      split; [apply (run_convert_raises w file_path cls Hi Hm Hx conv e Hc Hv)|].
      split; [eexists; reflexivity|]. intros _. eauto. }
  destruct (export_to_markdown (document res)) as [text|e] eqn:He.
  2:{ left. exists e. eexists.
      split; [solve_raises|].
      split; [apply (run_export_raises w file_path cls Hi Hm Hx conv res e
                       Hc Hv He)|].
      split; [exists []; reflexivity|]. intros _. eauto. }
  right. right. exists res, text. split.
  - exists cls, conv. auto 10.
  - apply (run_success w file_path cls Hi Hm Hx conv res text Hc Hv He).
Qed.

(** X1: when [path.exists()] itself raises, the exception is caught like
    a conversion failure: the result is the failure envelope with the
    message of the exception, and the converter is never constructed. *)
Theorem exists_failure_is_caught w file_path cls e :
  import_DocumentConverter w = Ret cls ->
  import_InputFormat w = Ret tt ->
  path_exists w file_path = Raise e ->
  let run := parse_document w file_path in
  result run
  = Ret [(lit "success", PyBool false);
         (lit "error", PyStr (exc_str e));
         (lit "filename",
           PyStr (match file_path with
                  | [] => lit "unknown"
                  | _ :: _ => Path_name (mkPath file_path)
                  end))]
  /\ ~ In EvConstruct (trace run)
  /\ (forall p, ~ In (EvConvert p) (trace run)).
Proof.
  intros Hi Hm Hx run. subst run.
  rewrite (run_exists_raises w file_path cls Hi Hm e Hx).
  cbn [result trace fst snd]. split.
  - unfold failure_envelope. destruct file_path; reflexivity.
  - unfold ev_import_converter, ev_import_models.
    split; [|intros p]; cbn; intuition discriminate.
Qed.

Lemma exists_failure_is_caught_witness :
  let run := parse_document w_denied (lit "/root/secret.pdf") in
  result run
  = Ret [(lit "success", PyBool false);
         (lit "error",
           PyStr (lit "[Errno 13] Permission denied: '/root/secret.pdf'"));
         (lit "filename", PyStr (lit "secret.pdf"))]
  /\ ~ In EvConstruct (trace run)
  /\ (forall p, ~ In (EvConvert p) (trace run)).
Proof.
  apply (exists_failure_is_caught w_denied (lit "/root/secret.pdf")
           demo_class permission_denied); reflexivity.
Defined.

Lemma trace_prefix w file_path :
  exists rest, pipeline file_path = trace (parse_document w file_path) ++ rest.
Proof.
  destruct (parse_document_runs w file_path)
    as [[e [t [_ [E [P _]]]]]|[[cls [_ [_ [_ E]]]]|[res [text [_ E]]]]];
    rewrite E; cbn [trace fst].
  - exact P.
  - eexists. reflexivity.
  - exists []. reflexivity.
Qed.

(** X2: the calls of a run are an initial segment of the sequence import,
    import, [exists(file_path)], constructor, [convert(file_path)],
    export: each step happens at most once and in this order, and the path
    given to [exists] and to [convert] is the argument, unchanged. *)
Theorem calls_are_a_prefix_of_the_pipeline w file_path :
  exists rest,
    [EvImport (lit "docling.document_converter");
     EvImport (lit "docling.datamodel.base_models");
     EvExists file_path; EvConstruct; EvConvert file_path; EvExport]
    = trace (parse_document w file_path) ++ rest.
Proof. exact (trace_prefix w file_path). Qed.

(** X3: the converter is constructed, and a conversion started, only
    after both imports succeeded and [exists()] returned [True]; the
    only path ever converted is the argument. *)
Theorem converter_needs_existing_path w file_path :
  (In EvConstruct (trace (parse_document w file_path))
   \/ exists p, In (EvConvert p) (trace (parse_document w file_path))) ->
  (exists cls, import_DocumentConverter w = Ret cls)
  /\ import_InputFormat w = Ret tt
  /\ path_exists w file_path = Ret true
  /\ forall p, In (EvConvert p) (trace (parse_document w file_path)) ->
               p = file_path.
Proof.
  intros H. destruct (trace_prefix w file_path) as [rest R].
  assert (P : forall p, In (EvConvert p) (trace (parse_document w file_path))
                        -> p = file_path).
  { intros p I.
    assert (I' : In (EvConvert p) (pipeline file_path)).
    { rewrite R. apply in_or_app. now left. }
    cbn in I'. intuition congruence. }
  assert (C : In EvConstruct (trace (parse_document w file_path))).
  { destruct H as [H|[p I]]; [exact H|].
    destruct (trace (parse_document w file_path)) as [|e1 [|e2 [|e3 [|e4 t]]]];
      [contradiction| | | |];
      unfold pipeline in R; cbn in R; injection R; intros; subst;
      first [ solve [cbn; auto 6] | cbn in I; intuition discriminate ]. }
  clear H R.
  destruct (parse_document_runs w file_path)
    as [[e [t [_ [E [_ K]]]]]|[[cls [_ [_ [_ E]]]]|[res [text [Cv E]]]]];
    rewrite E in C; cbn [trace fst] in C.
  - destruct (K C) as [K1 [K2 K3]]. auto.
  - exfalso. cbn in C. unfold ev_import_converter, ev_import_models in C.
    intuition discriminate.
  - destruct Cv as [cls [conv [Hi [Hm [Hx _]]]]].
    split; [now exists cls|]. auto.
Qed.

Lemma converter_needs_existing_path_witness :
  (exists cls, import_DocumentConverter w_docling = Ret cls)
  /\ import_InputFormat w_docling = Ret tt
  /\ path_exists w_docling (lit "notes.xyz") = Ret true
  /\ forall p, In (EvConvert p) (trace (parse_document w_docling (lit "notes.xyz")))
               -> p = lit "notes.xyz".
Proof.
  apply (converter_needs_existing_path w_docling (lit "notes.xyz")).
  left. cbn. auto.
Defined.

(** ** Reading a result *)

(** X4: an envelope with [success] true is returned only when every step
    succeeded: both imports, the existence check, the constructor, the
    conversion and the export; its [text] is that export and its [pages]
    the page count of that document. *)
Theorem success_means_converted w file_path d :
  result (parse_document w file_path) = Ret d ->
  get (lit "success") d = Some (PyBool true) ->
  exists res text,
    converted w file_path res text
    /\ d = [(lit "success", PyBool true);
            (lit "text", PyStr text);
            (lit "filename", PyStr (Path_name (mkPath file_path)));
            (lit "pages", PyInt (page_count (document res)))].
Proof.
  intros R S.
  destruct (parse_document_runs w file_path)
    as [[e [t [_ [E _]]]]|[[cls [_ [_ [_ E]]]]|[res [text [Cv E]]]]];
    rewrite E in R; cbn [result snd] in R; injection R as <-.
  - discriminate S.
  - discriminate S.
  - exists res, text. split; [exact Cv|reflexivity].
Qed.

Lemma success_means_converted_witness :
  exists res text,
    converted w_docling (lit "/tmp/report.pdf") res text
    /\ success_envelope (lit "# Report" ++ [10; 10] ++ lit "caf" ++ [233])
                        (lit "report.pdf") 3
       = [(lit "success", PyBool true);
          (lit "text", PyStr text);
          (lit "filename", PyStr (Path_name (mkPath (lit "/tmp/report.pdf"))));
          (lit "pages", PyInt (page_count (document res)))].
Proof.
  apply (success_means_converted w_docling (lit "/tmp/report.pdf"));
    reflexivity.
Defined.

(** X5: a result without a [success] key is returned only when both
    imports succeeded and [exists()] returned [False]; it is then the
    not-found object for the argument. *)
Theorem no_success_key_means_not_found w file_path d :
  result (parse_document w file_path) = Ret d ->
  has_key (lit "success") d = false ->
  (exists cls, import_DocumentConverter w = Ret cls)
  /\ import_InputFormat w = Ret tt
  /\ path_exists w file_path = Ret false
  /\ d = [(lit "error", PyStr (lit "File not found: " ++ file_path))].
Proof.
  intros R S.
  destruct (parse_document_runs w file_path)
    as [[e [t [_ [E _]]]]|[[cls [Hi [Hm [Hx E]]]]|[res [text [_ E]]]]];
    rewrite E in R; cbn [result snd] in R; injection R as <-.
  - discriminate S.
  - split; [now exists cls|]. auto.
  - discriminate S.
Qed.

Lemma no_success_key_means_not_found_witness :
  (exists cls, import_DocumentConverter w_docling = Ret cls)
  /\ import_InputFormat w_docling = Ret tt
  /\ path_exists w_docling (lit "missing.pdf") = Ret false
  /\ not_found_envelope (lit "missing.pdf")
     = [(lit "error", PyStr (lit "File not found: " ++ lit "missing.pdf"))].
Proof.
  apply (no_success_key_means_not_found w_docling (lit "missing.pdf"));
    reflexivity.
Defined.

(** X6: an envelope with [success] false is returned only when one of
    the steps raised: an import, the existence check, the constructor, the
    conversion or the export; its [error] is the message of that
    exception. *)
Theorem failure_means_a_step_raised w file_path d :
  result (parse_document w file_path) = Ret d ->
  get (lit "success") d = Some (PyBool false) ->
  exists e,
    raises_at w file_path e
    /\ get (lit "error") d = Some (PyStr (exc_str e)).
Proof.
  intros R S.
  destruct (parse_document_runs w file_path)
    as [[e [t [Rz [E _]]]]|[[cls [_ [_ [_ E]]]]|[res [text [_ E]]]]];
    rewrite E in R; cbn [result snd] in R; injection R as <-.
  - exists e. split; [exact Rz|reflexivity].
  - discriminate S.
  - discriminate S.
Qed.

Lemma failure_means_a_step_raised_witness :
  exists e,
    raises_at w_denied (lit "/root/secret.pdf") e
    /\ get (lit "error")
         (failure_envelope permission_denied (lit "/root/secret.pdf"))
       = Some (PyStr (exc_str e)).
Proof.
  apply (failure_means_a_step_raised w_denied (lit "/root/secret.pdf"));
    reflexivity.
Defined.

(** ** The name of a path *)

Lemma split_not_nil sep s : split sep s <> [].
Proof.
  destruct s as [|c r]; cbn; [discriminate|].
  destruct (c =? sep); [discriminate|].
  destruct (split sep r); discriminate.
Qed.


Lemma split_app sep a b :
  split sep (a ++ sep :: b) = split sep a ++ split sep b.
Proof.
  induction a as [|c a IH]; cbn.
  - rewrite N.eqb_refl. reflexivity.
  - destruct (c =? sep); [now rewrite IH|].
    rewrite IH. pose proof (split_not_nil sep a) as N.
    destruct (split sep a); [congruence|reflexivity].
Qed.

Lemma split_one sep s : ~ In sep s -> split sep s = [s].
Proof.
  induction s as [|c r IH]; cbn; intros N; [reflexivity|].
  destruct (N.eqb_spec c sep) as [->|_]; [exfalso; auto|].
  rewrite IH by tauto. reflexivity.
Qed.

Lemma str_eqb_neq a b : a <> b -> str_eqb a b = false.
Proof.
  intros N. unfold str_eqb.
  destruct (list_eq_dec N.eq_dec a b) as [E|_]; [now elim N|reflexivity].
Qed.






(** X8: the name of a path is its last component: for a directory part
    [dir] and a component [base] that is not empty, is not [.] and has no
    separator, the name of [dir/base] is [base]. *)
Theorem name_of_joined_path dir base :
  base <> [] -> base <> lit "." -> ~ In 47 base ->
  Path_name (mkPath (dir ++ [47] ++ base)) = base.
Proof.
  intros N1 N2 N3. unfold Path_name, path_parts. cbn [raw app].
  rewrite split_app, filter_app, (split_one 47 base N3). cbn [filter].
  rewrite (str_eqb_neq base [] N1), (str_eqb_neq base (lit ".") N2).
  cbn [orb negb]. apply last_last.
Qed.

Lemma name_of_joined_path_witness :
  Path_name (mkPath (lit "/tmp/uploads" ++ [47] ++ lit "scan 01.png"))
  = lit "scan 01.png".
Proof.
  apply (name_of_joined_path (lit "/tmp/uploads") (lit "scan 01.png"));
    [discriminate|discriminate|].
  cbn. intuition discriminate.
Defined.

(** X9: a trailing separator does not change the name of a path: [dir/]
    has the name of [dir], where [os.path.basename] would give the empty
    string. *)
Theorem name_ignores_trailing_separator s :
  Path_name (mkPath (s ++ [47])) = Path_name (mkPath s).
Proof.
  unfold Path_name, path_parts. cbn [raw].
  rewrite split_app, filter_app. cbn. rewrite app_nil_r. reflexivity.
Qed.

(** ** The printed line determines the envelope *)

Ltac eval_replace c :=
  let r := eval vm_compute in (json.replace c) in
  change (json.replace c) with r.

Lemma read_replace c t :
  read_string (json.replace c ++ t)
  = match read_string t with
    | Some (s, r) => Some (c :: s, r)
    | None => None
    end.
Proof.
  destruct (N.ltb_spec c 32) as [L|L].
  - pose proof (control_characters c L) as I. cbn in I.
    repeat (destruct I as [<-|I];
      [ match goal with |- context [json.replace ?k] => eval_replace k end;
        cbn; destruct (read_string t) as [[s r]|]; reflexivity
      | ]).
    contradiction.
  - destruct (replace_from_space c L) as [[-> E]|[[-> E]|[N1 [N2 E]]]];
      rewrite E.
    + cbn. destruct (read_string t) as [[s r]|]; reflexivity.
    + cbn. destruct (read_string t) as [[s r]|]; reflexivity.
    + cbn [app read_string].
      destruct (N.eqb_spec c 34); [contradiction|].
      destruct (N.eqb_spec c 92); [contradiction|]. reflexivity.
Qed.

Lemma read_encoded s r :
  read_string (flat_map json.replace s ++ 34 :: r) = Some (s, r).
Proof.
  induction s as [|c s IH]; cbn [flat_map app].
  - reflexivity.
  - rewrite <- app_assoc, read_replace, IH. reflexivity.
Qed.

Lemma encoder_inj s1 s2 r1 r2 :
  json.encoder false s1 ++ r1 = json.encoder false s2 ++ r2 ->
  s1 = s2 /\ r1 = r2.
Proof.
  unfold json.encoder, json.py_encode_basestring. cbn [app].
  rewrite <- !app_assoc. cbn [app]. intros E. injection E as E.
  apply (f_equal read_string) in E. rewrite !read_encoded in E.
  injection E as -> ->. auto.
Qed.

Lemma dec_digits_inj u1 : forall u2 r1 r2,
  after_value r1 -> after_value r2 ->
  json.dec_digits u1 ++ r1 = json.dec_digits u2 ++ r2 ->
  u1 = u2 /\ r1 = r2.
Proof.
  induction u1 as [|u1 IH|u1 IH|u1 IH|u1 IH|u1 IH|u1 IH|u1 IH|u1 IH|u1 IH|u1 IH];
    intros u2 r1 r2 A1 A2 E; destruct u2 as [|u2|u2|u2|u2|u2|u2|u2|u2|u2|u2];
    cbn [json.dec_digits app] in E;
    try (split; [reflexivity|exact E]);
    try (destruct A1 as [r' [-> | ->]]; discriminate E);
    try (destruct A2 as [r' [-> | ->]]; discriminate E);
    try discriminate E;
    injection E as E; destruct (IH _ _ _ A1 A2 E) as [-> ->]; auto.
Qed.

Lemma int_chars_inj d1 d2 r1 r2 :
  after_value r1 -> after_value r2 ->
  json.int_chars d1 ++ r1 = json.int_chars d2 ++ r2 ->
  d1 = d2 /\ r1 = r2.
Proof.
  intros A1 A2 E. destruct d1 as [u1|u1], d2 as [u2|u2];
    cbn [json.int_chars app] in E.
  - destruct (dec_digits_inj u1 u2 r1 r2 A1 A2 E) as [-> ->]. auto.
  - exfalso. destruct u1; cbn [json.dec_digits app] in E;
      try discriminate E. destruct A1 as [r' [-> | ->]]; discriminate E.
  - exfalso. destruct u2; cbn [json.dec_digits app] in E;
      try discriminate E. destruct A2 as [r' [-> | ->]]; discriminate E.
  - injection E as E.
    destruct (dec_digits_inj u1 u2 r1 r2 A1 A2 E) as [-> ->]. auto.
Qed.

(** The first character of a number followed by the rest of an object. *)
Lemma int_chars_head d r :
  after_value r ->
  exists c t, json.int_chars d ++ r = c :: t
              /\ (c = 45 \/ (48 <= c /\ c <= 57) \/ c = 44 \/ c = 125).
Proof.
  intros [r' A].
  destruct d as [u|u]; cbn [json.int_chars app].
  2:{ eexists _, _. split; [reflexivity|]. now left. }
  destruct u; cbn [json.dec_digits app];
    try (eexists _, _; split; [reflexivity|]; right; left; lia).
  destruct A as [-> | ->]; eexists _, _; (split; [reflexivity|]); auto.
Qed.

Lemma encode_value_inj v1 v2 r1 r2 :
  after_value r1 -> after_value r2 ->
  json.encode_value false v1 ++ r1 = json.encode_value false v2 ++ r2 ->
  v1 = v2 /\ r1 = r2.
Proof.
  intros A1 A2 E.
  assert (K : forall d r (t : str) c,
            after_value r -> c = 116 \/ c = 102 \/ c = 34 ->
            json.int_chars d ++ r <> c :: t).
  { intros d r t c A C F.
    destruct (int_chars_head d r A) as [c' [t' [H1 H2]]].
    rewrite H1 in F. injection F as -> _. lia. }
  destruct v1 as [[|]|z1|s1], v2 as [[|]|z2|s2]; cbn [json.encode_value] in E;
    first
      [ destruct (encoder_inj _ _ _ _ E) as [-> ->]; now auto
      | destruct (int_chars_inj _ _ _ _ A1 A2 E) as [D ->];
        apply DecimalZ.to_int_inj in D; subst; now auto
      | exfalso;
        unfold json.encoder, json.py_encode_basestring, json.int_repr in E;
        cbn [lit N_of_ascii app] in E;
        first [ discriminate E
              | eapply K; [| |exact E]; [assumption|auto]; fail
              | symmetry in E; eapply K; [| |exact E]; [assumption|auto] ]
      | cbn [lit N_of_ascii app] in E; injection E as ->; auto ].
Qed.

Lemma after_comma r : after_value (44 :: r).
Proof. exists r. now left. Qed.

Lemma after_brace r : after_value (125 :: r).
Proof. exists r. now right. Qed.

Lemma encode_item_inj kv1 kv2 r1 r2 :
  after_value r1 -> after_value r2 ->
  json.encode_item false kv1 ++ r1 = json.encode_item false kv2 ++ r2 ->
  kv1 = kv2 /\ r1 = r2.
Proof.
  intros A1 A2 E. destruct kv1 as [k1 v1], kv2 as [k2 v2].
  unfold json.encode_item in E. cbn [fst snd] in E.
  rewrite <- !app_assoc in E.
  destruct (encoder_inj _ _ _ _ E) as [-> E'].
  cbn [lit N_of_ascii app] in E'. injection E' as E'.
  destruct (encode_value_inj _ _ _ _ A1 A2 E') as [-> ->]. auto.
Qed.

Lemma after_items_tail d r : after_value (items_tail d r).
Proof. destruct d; [apply after_brace|apply after_comma]. Qed.

Lemma encode_items_cons kv d r :
  json.encode_items false (kv :: d) ++ 125 :: r
  = json.encode_item false kv ++ items_tail d r.
Proof.
  destruct d as [|kv' d]; cbn [json.encode_items items_tail].
  - reflexivity.
  - rewrite <- !app_assoc. reflexivity.
Qed.

Lemma encode_items_inj d1 : forall d2 r1 r2,
  json.encode_items false d1 ++ 125 :: r1
  = json.encode_items false d2 ++ 125 :: r2 ->
  d1 = d2 /\ r1 = r2.
Proof.
  assert (Q : forall kv (t r : str),
            json.encode_item false kv ++ t <> 125 :: r).
  { intros kv t r F. unfold json.encode_item, json.encoder,
      json.py_encode_basestring in F. cbn [app] in F. discriminate F. }
  induction d1 as [|kv1 rest1 IH]; intros d2 r1 r2 E;
    destruct d2 as [|kv2 rest2].
  - cbn [json.encode_items app] in E. injection E as ->. auto.
  - exfalso. rewrite encode_items_cons in E. cbn [json.encode_items app] in E.
    symmetry in E. exact (Q _ _ _ E).
  - exfalso. rewrite encode_items_cons in E. cbn [json.encode_items app] in E.
    exact (Q _ _ _ E).
  - rewrite !encode_items_cons in E.
    destruct (encode_item_inj _ _ _ _ (after_items_tail _ _)
                (after_items_tail _ _) E) as [-> T].
    destruct rest1 as [|a1 l1], rest2 as [|a2 l2]; cbn [items_tail] in T.
    + injection T as ->. auto.
    + discriminate T.
    + discriminate T.
    + destruct (IH (a2 :: l2) r1 r2) as [-> ->];
        [injection T as T; exact T|auto].
Qed.

(** Two dicts with the same serialization are equal. *)
Lemma dumps_inj d1 d2 :
  json.dumps false d1 = json.dumps false d2 -> d1 = d2.
Proof.
  unfold json.dumps. cbn [lit N_of_ascii app]. intros E. injection E as E.
  now destruct (encode_items_inj d1 d2 [] [] E).
Qed.

(** X10: whatever the path, the exported text or the message of an
    exception contain, the script writes either nothing (when [print]
    cannot encode the text) or one line whose bytes before the final line
    feed are all at least 0x20: no NUL, tabulation, carriage return or
    line feed inside the line. *)
Theorem output_bytes_from_space w argv :
  stdout (main w argv) = []
  \/ exists b,
       stdout (main w argv) = b ++ [10]
       /\ Forall (fun x => 32 <= x) b.
Proof.
  destruct argv as [|prog [|file_path rest]].
  - right. rewrite (main_without_argument w []) by (cbn; lia).
    eexists. split; [reflexivity|].
    change (json.dumps true usage_envelope)
      with (json.dumps false usage_envelope). apply dumps_printable.
  - right. rewrite (main_without_argument w [prog]) by (cbn; lia).
    eexists. split; [reflexivity|].
    change (json.dumps true usage_envelope)
      with (json.dumps false usage_envelope). apply dumps_printable.
  - destruct (main_with_argument w prog file_path rest) as [d [_ O]].
    rewrite O.
    destruct (encode (sys_stdout w) (json.dumps false d)) as [b|] eqn:E;
      [right|now left].
    exists b. split; [reflexivity|].
    apply (encode_printable (sys_stdout w) (json.dumps false d) b E).
    apply dumps_printable.
Qed.

(** X11: under one and the same strict standard output, a printed line
    determines the result: when two runs of the script with an argument
    write the same non-empty output, [parse_document] returned the same
    envelope in both. *)
Theorem output_determines_envelope w1 w2 prog1 prog2 p1 p2 rest1 rest2 :
  sys_stdout w1 = sys_stdout w2 ->
  errors (sys_stdout w1) = strict ->
  stdout (main w1 (prog1 :: p1 :: rest1)) <> [] ->
  stdout (main w1 (prog1 :: p1 :: rest1))
  = stdout (main w2 (prog2 :: p2 :: rest2)) ->
  result (parse_document w1 p1) = result (parse_document w2 p2).
Proof.
  intros C S.
  destruct (main_with_argument w1 prog1 p1 rest1) as [d1 [R1 O1]].
  destruct (main_with_argument w2 prog2 p2 rest2) as [d2 [R2 O2]].
  rewrite O1, O2, R1, R2, <- C.
  destruct (encode (sys_stdout w1) (json.dumps false d1)) as [b1|] eqn:E1;
    cbn [stdout]; [|congruence].
  destruct (encode (sys_stdout w1) (json.dumps false d2)) as [b2|] eqn:E2;
    cbn [stdout]; intros _ E.
  - apply app_inv_tail in E. subst b2.
    now rewrite (dumps_inj d1 d2
                   (encode_strict_inj (sys_stdout w1) _ _ b1 S E1 E2)).
  - destruct b1; discriminate E.
Qed.

Lemma output_determines_envelope_witness :
  result (parse_document w_docling (lit "/tmp/report.pdf"))
  = result (parse_document w_other (lit "/tmp/report.pdf")).
Proof.
  apply (output_determines_envelope w_docling w_other
           (lit "parse_document.py") (lit "./parse_document.py")
           (lit "/tmp/report.pdf") (lit "/tmp/report.pdf") [] [lit "--ocr"]);
    [reflexivity|reflexivity|vm_compute; discriminate|reflexivity].
Defined.

(** X12: the usage error can be told from every result of a conversion:
    no run with an argument prints the line printed without argument, even
    for a path that is not found. *)
Theorem usage_output_is_distinct w w' prog prog' file_path rest :
  stdout (main w [prog]) <> stdout (main w' (prog' :: file_path :: rest)).
Proof.
  destruct (main_with_argument w' prog' file_path rest) as [d [R O]].
  rewrite O, (main_without_argument w [prog]) by (cbn; lia).
  destruct (encode (sys_stdout w') (json.dumps false d)) as [b|] eqn:E;
    cbn [stdout]; [|discriminate].
  intros F. apply app_inv_tail in F. subst b.
  apply encode_ascii_inv in E; [|exact usage_line_ascii].
  change (json.dumps true usage_envelope)
    with (json.dumps false usage_envelope) in E.
  apply dumps_inj in E. subst d.
  destruct (parse_document_cases w' file_path) as [[e H]|[H|[text [n H]]]];
    rewrite H in R; discriminate R.
Qed.
